(** * full_fred: the request builder [FredBase] of [full_fred/fred_base.py]

    A shallow embedding of the class [FredBase]: credential resolution
    ([_viable_api_key]), request-URL assembly ([_make_request_url],
    [_add_optional_params], [_get_realtime_date], [_append_id_to_url],
    [_join_strings_by]) and the fetch path ([_get_response],
    [_fetch_data]).

    Python strings are embedded as [string], one character per code point
    below 256.  The process environment and the file system are finite
    maps, the HTTP library is a function from URLs to outcomes, [print] is a
    log of lines and exceptions are an explicit result. *)

From Stdlib Require Import ZArith Ascii String List Bool Lia.
From stdpp Require Import base option list gmap strings pretty.

Set Warnings "-register-all".

(** ** Python string primitives *)

Module PyStr.

Definition space : ascii := " "%char.
Definition plus : ascii := "+"%char.
Definition LF : ascii := ascii_of_nat 10.
Definition CR : ascii := ascii_of_nat 13.
Definition TAB : ascii := ascii_of_nat 9.

(** [str.isspace] on one character: TAB, LF, VT, FF, CR, the separators
    FS, GS, RS, US, the space, NEL and the no-break space. *)
Definition isspace (c : ascii) : bool :=
  let n := nat_of_ascii c in
  ((9 <=? n)%nat && (n <=? 13)%nat) || ((28 <=? n)%nat && (n <=? 32)%nat)
  || (n =? 133)%nat || (n =? 160)%nat.

Fixpoint lstrip (s : string) : string :=
  match s with
  | String c t => if isspace c then lstrip t else s
  | EmptyString => EmptyString
  end.

(** [rstrip] drops the maximal suffix of white space: a character is kept
    when it is not white space or when something is kept after it. *)
Fixpoint rstrip (s : string) : string :=
  match s with
  | String c t =>
      match rstrip t with
      | EmptyString => if isspace c then EmptyString else String c EmptyString
      | r => String c r
      end
  | EmptyString => EmptyString
  end.

(** [s.strip()] *)
Definition strip (s : string) : string := rstrip (lstrip s).

Fixpoint map_chars (f : ascii -> ascii) (s : string) : string :=
  match s with
  | String c t => String (f c) (map_chars f t)
  | EmptyString => EmptyString
  end.

(** [s.replace(old, new)] for one-character [old] and [new]. *)
Definition replace (old new : ascii) (s : string) : string :=
  map_chars (fun c => if Ascii.eqb c old then new else c) s.

(** Upper-case letters: A to Z, and in the Latin-1 block U+00C0 to U+00DE
    without the multiplication sign. *)
Definition lower_char (c : ascii) : ascii :=
  let n := nat_of_ascii c in
  if ((65 <=? n)%nat && (n <=? 90)%nat)
     || ((192 <=? n)%nat && (n <=? 222)%nat && negb (n =? 215)%nat)
  then ascii_of_nat (n + 32) else c.

(** [s.lower()] *)
Definition lower (s : string) : string := map_chars lower_char s.

(** [needle in hay] *)
Fixpoint contains (needle hay : string) : bool :=
  String.prefix needle hay ||
  match hay with
  | String _ t => contains needle t
  | EmptyString => false
  end.

Fixpoint has_char (c : ascii) (s : string) : bool :=
  match s with
  | String d t => Ascii.eqb c d || has_char c t
  | EmptyString => false
  end.

(** [sep.join(parts)] for a list of strings. *)
Fixpoint join (sep : string) (parts : list string) : string :=
  match parts with
  | [] => EmptyString
  | [p] => p
  | p :: rest => p +:+ sep +:+ join sep rest
  end.

(** The characters of a string, each as a one-character string: what
    iterating over a [str] yields. *)
Fixpoint chars (s : string) : list string :=
  match s with
  | String c t => String c EmptyString :: chars t
  | EmptyString => []
  end.

(** [f.readline()] on a text file opened with universal newlines: the
    text up to and including the first line ending, which is read as LF
    whether the file has LF, CR or CR LF. *)
Fixpoint readline (s : string) : string :=
  match s with
  | String c t =>
      if Ascii.eqb c LF || Ascii.eqb c CR then String LF EmptyString
      else String c (readline t)
  | EmptyString => EmptyString
  end.

Definition hex_digit (n : nat) : ascii :=
  if (n <? 10)%nat then ascii_of_nat (48 + n) else ascii_of_nat (87 + n).

Definition backslash : ascii := ascii_of_nat 92.
Definition quote1 : ascii := ascii_of_nat 39.
Definition quote2 : ascii := ascii_of_nat 34.

Definition repr_char (q c : ascii) : string :=
  let n := nat_of_ascii c in
  if Ascii.eqb c backslash || Ascii.eqb c q then String backslash (String c EmptyString)
  else if Ascii.eqb c LF then String backslash "n"
  else if Ascii.eqb c CR then String backslash "r"
  else if Ascii.eqb c TAB then String backslash "t"
  else if (n <? 32)%nat || ((127 <=? n)%nat && (n <=? 160)%nat)
          || (n =? 173)%nat then
    String backslash
      (String "x" (String (hex_digit (n / 16)) (String (hex_digit (n mod 16)) EmptyString)))
  else String c EmptyString.

Fixpoint repr_body (q : ascii) (s : string) : string :=
  match s with
  | String c t => repr_char q c +:+ repr_body q t
  | EmptyString => EmptyString
  end.

(** [repr(s)]: single quotes, unless the string has a single quote and no
    double quote. *)
Definition repr (s : string) : string :=
  let q := if has_char quote1 s && negb (has_char quote2 s) then quote2 else quote1 in
  String q (repr_body q s +:+ String q EmptyString).

End PyStr.

(** ** Python values *)

(** The values a parameter table holds: [None], booleans, integers,
    strings and lists of values.  Floats, tuples and dicts are left out. *)
Inductive value : Type :=
| VNone
| VBool (b : bool)
| VInt (n : Z)
| VStr (s : string)
| VList (items : list value).

Definition is_none (v : value) : bool :=
  match v with VNone => true | _ => false end.

(** [repr(v)] and [str(v)]: they differ on strings only. *)
Fixpoint py_repr (v : value) : string :=
  match v with
  | VNone => "None"
  | VBool true => "True"
  | VBool false => "False"
  | VInt n => pretty n
  | VStr s => PyStr.repr s
  | VList items =>
      "[" +:+ PyStr.join ", " (List.map py_repr items) +:+ "]"
  end.

Definition py_str (v : value) : string :=
  match v with
  | VStr s => s
  | _ => py_repr v
  end.

(** ** Exceptions, printed output and the monad of method bodies *)

Inductive exn_class : Type :=
| TypeError
| ValueError
| AttributeError
| KeyError
| UnboundLocalError
| FileNotFoundError
| IsADirectoryError
| RequestException
| JSONDecodeError
| SyntaxError.

Global Instance exn_class_eq_dec : EqDecision exn_class.
Proof. solve_decision. Defined.

Record exn : Type := mk_exn { exn_cls : exn_class; exn_msg : string }.

(** The outcome of a call: a returned value or a raised exception, each
    with the lines printed so far. *)
Inductive outcome (A : Type) : Type :=
| Return (a : A) (out : list string)
| Raise (e : exn) (out : list string).
Arguments Return {A} a out.
Arguments Raise {A} e out.

Definition Py (A : Type) : Type := list string -> outcome A.

Global Instance Py_ret : MRet Py := fun A a out => Return a out.

Global Instance Py_bind : MBind Py := fun A B k m out =>
  match m out with
  | Return a out' => k a out'
  | Raise e out' => Raise e out'
  end.

Definition raise {A : Type} (c : exn_class) (msg : string) : Py A :=
  fun out => Raise (mk_exn c msg) out.

(** [print(line)] *)
Definition print (line : string) : Py unit :=
  fun out => Return tt (out ++ [line]).

(** [try: body / except c as e: handler e].  No handler of the class
    relies on catching a subclass, so classes are compared by name. *)
Definition try_except {A : Type} (body : Py A) (c : exn_class)
    (handler : exn -> Py A) : Py A :=
  fun out =>
    match body out with
    | Return a out' => Return a out'
    | Raise e out' =>
        if decide (exn_cls e = c) then handler e out' else Raise e out'
    end.

(** A call started with nothing printed yet. *)
Definition run {A : Type} (m : Py A) : outcome A := m [].

(** ** The outside world *)

Inductive node : Type :=
| RegularFile (content : string)
| Directory.

(** What [response.json()] decodes to; [JNull] is Python's [None].  Numbers
    are kept as their literal. *)
Inductive json : Type :=
| JNull
| JBool (b : bool)
| JNumber (literal : string)
| JString (s : string)
| JArray (items : list json)
| JObject (members : list (string * json)).

(** A response of the HTTP library: [decoded] is what its [json()] method
    returns, or [None] when the body is not JSON and [json()] raises. *)
Record Response : Type := mk_response { decoded : option json }.

Inductive get_result : Type :=
| Fails
| Responds (r : Response).

Record World : Type := mk_world {
  environ : gmap string string;
  files : gmap string node;
  network : string -> get_result;
}.

Section Builtins.
Variable w : World.

(** [os.path.isfile(path)] *)
Definition isfile (path : string) : bool :=
  match files w !! path with
  | Some (RegularFile _) => true
  | _ => false
  end.

(** [open(path, 'r')] followed by reading: the text of the file. *)
Definition open_r (path : option string) : Py string :=
  match path with
  | None => raise TypeError "expected str, bytes or os.PathLike object, not NoneType"
  | Some p =>
      match files w !! p with
      | Some (RegularFile content) => mret content
      | Some Directory =>
          raise IsADirectoryError ("[Errno 21] Is a directory: " +:+ PyStr.repr p)
      | None =>
          raise FileNotFoundError
            ("[Errno 2] No such file or directory: " +:+ PyStr.repr p)
      end
  end.

(** [os.environ[name]] *)
Definition environ_item (name : string) : Py string :=
  match environ w !! name with
  | Some v => mret v
  | None => raise KeyError (PyStr.repr name)
  end.

(** [requests.get(url)]: a failed request raises [RequestException]; so
    does a URL that is not a string ([None] has no scheme). *)
Definition requests_get (url : option string) : Py Response :=
  match url with
  | None => raise RequestException "Invalid URL 'None': No scheme supplied"
  | Some u =>
      match network w u with
      | Fails => raise RequestException "request failed"
      | Responds r => mret r
      end
  end.

(** [response.json()] *)
Definition response_json (r : Response) : Py json :=
  match decoded r with
  | Some j => mret j
  | None => raise JSONDecodeError "response body is not JSON"
  end.

End Builtins.

(** ** Parameter tables *)

(** A [dict] from parameter names to values, in insertion order.  The
    keys of a [dict] are distinct: the tables of the statements below come
    with [NoDup] of their keys. *)
Definition dict : Type := list (string * value).

Definition keys (d : dict) : list string := List.map fst d.

Fixpoint dict_get (k : string) (d : dict) : option value :=
  match d with
  | [] => None
  | (k', v) :: rest => if String.eqb k k' then Some v else dict_get k rest
  end.

(** [d[k] = v]: an existing key keeps its place, a new one goes last. *)
Fixpoint dict_set (k : string) (v : value) (d : dict) : dict :=
  match d with
  | [] => [(k, v)]
  | (k', v') :: rest =>
      if String.eqb k k' then (k', v) :: rest else (k', v') :: dict_set k v rest
  end.

(** [d[k]] *)
Definition dict_item (k : string) (d : dict) : Py value :=
  match dict_get k d with
  | Some v => mret v
  | None => raise KeyError (PyStr.repr k)
  end.

(** [sep.join(v)]: [None] stands for the [TypeError] of joining something
    that is not an iterable of strings. *)
Definition py_join (sep : string) (v : value) : option string :=
  match v with
  | VStr s => Some (PyStr.join sep (PyStr.chars s))
  | VList items =>
      PyStr.join sep <$>
        mapM (fun x => match x with VStr s => Some s | _ => None end) items
  | _ => None
  end.

(** ** The class [FredBase] *)

Record FredBase : Type := mk_FredBase {
  realtime_start : string;
  realtime_end : string;
  url_base : string;
  api_key : option string;
  api_key_file : option string;
  api_key_env_var : bool;
}.

Definition URL_BASE : string := "https://api.stlouisfed.org/fred/".
Definition FRED_API_KEY : string := "FRED_API_KEY".
Definition INCLUDE_EMPTY : string := "&include_release_dates_with_no_data=".

Section Methods.
Variable w : World.

(** [set_api_key_file]: the object after the call and the returned flag. *)
Definition set_api_key_file (self : FredBase) (file : option string)
    : Py (FredBase * bool) :=
  match file with
  | None => raise TypeError "set_api_key_file missing api_key_file argument"
  | Some f =>
      if negb (isfile w f) then
        raise FileNotFoundError ("Can't find " +:+ f +:+ ", on path")
      else
        mret (mk_FredBase (realtime_start self) (realtime_end self)
                (url_base self) (api_key self) (Some f) (api_key_env_var self),
              true)
  end.

Definition get_api_key_file (self : FredBase) : option string :=
  api_key_file self.

(** [_read_api_key_file]: the key, or [None] after a printed diagnostic. *)
Definition _read_api_key_file (self : FredBase) : Py (option string) :=
  try_except
    (content ← open_r w (api_key_file self);
     mret (Some (PyStr.strip (PyStr.readline content))))
    FileNotFoundError
    (fun e => _ ← print (exn_msg e); mret None).

(** [env_api_key_found], repaired.  Line 74 of the source opens the body
    with [elif] where no [if] comes before it, which is not Python: the
    method as shipped has no body that runs (see
    [env_api_key_found_as_shipped] below).  This definition is the repair
    that reads the [elif] as [if], and [__init__] and [_viable_api_key]
    below call it; what they do on the paths that reach it is what the
    repaired program does, not the shipped one.  A value found in
    [os.environ] is a string, so the inner [is not None] test holds
    whenever the name is present. *)
Definition env_api_key_found (self : FredBase) : bool :=
  if bool_decide (FRED_API_KEY ∈ dom (environ w)) then
    match environ w !! FRED_API_KEY with
    | Some _ => true
    | None => false
    end
  else false.

(** [__init__] *)
Definition init (key file : option string) : Py FredBase :=
  let self :=
    mk_FredBase "1776-07-04" "9999-12-31" URL_BASE key file false in
  match key, file with
  | None, Some f =>
      '(self', _) ← set_api_key_file self (Some f); mret self'
  | _, _ =>
      if env_api_key_found self then
        mret (mk_FredBase (realtime_start self) (realtime_end self)
                (url_base self) (api_key self) (api_key_file self) true)
      else mret self
  end.

(** [_viable_api_key] *)
Definition _viable_api_key (self : FredBase) : Py string :=
  match api_key self with
  | None =>
      match api_key_file self with
      | None =>
          if negb (env_api_key_found self) then
            raise AttributeError "Cannot locate a FRED API key"
          else mret "env"
      | Some _ => mret "file"
      end
  | Some _ => mret "attribute"
  end.

(** [base + s] where [s] may be [None]. *)
Definition concat_str (base : string) (s : option string) : Py string :=
  match s with
  | Some t => mret (base +:+ t)
  | None => raise TypeError "can only concatenate str (not NoneType) to str"
  end.

(** [_make_request_url]: the URL, or [None] when the method falls off its
    end. *)
Definition _make_request_url (self : FredBase) (var_url : string)
    : Py (option string) :=
  key_to_use ← _viable_api_key self;
  let url_base := [url_base self; var_url; "&file_type=json&api_key="] in
  let base := PyStr.join EmptyString url_base in
  if String.eqb key_to_use "attribute" then
    url ← concat_str base (api_key self); mret (Some url)
  else
    from_env ←
      (if String.eqb key_to_use "env" then
         try_except
           (v ← environ_item w FRED_API_KEY; mret (Some (base +:+ v)))
           KeyError
           (fun sans =>
              _ ← print (exn_msg sans +:+ " " +:+ " no longer found in environment");
              mret None)
       else mret None);
    match from_env with
    | Some url => mret (Some url)
    | None =>
        if String.eqb key_to_use "file" then
          k ← _read_api_key_file self;
          url ← concat_str base k; mret (Some url)
        else mret None
    end.

(** [_get_response]: [JNull] is the [None] of the bare [return]. *)
Definition _get_response (a_url : option string) : Py json :=
  got ← try_except
          (response ← requests_get w a_url; mret (Some response))
          RequestException
          (fun _ => mret None);
  match got with
  | None => mret JNull
  | Some response => response_json response
  end.

(** [_fetch_data] *)
Definition _fetch_data (self : FredBase) (url_prefix : string) : Py json :=
  url ← _make_request_url self url_prefix;
  json_data ← _get_response url;
  match json_data with
  | JNull =>
      let message := "Data could not be retrieved, returning None" in
      _ ← print message; mret JNull
  | _ => mret json_data
  end.

End Methods.

(** ** The environment check as shipped *)

(** [env_api_key_found] as the source has it.  The body starts with [elif]
    (line 74), so Python refuses it with [SyntaxError]; it refuses the
    whole module with it, when the module is imported.  The embedding lets
    the error surface where the body would run, so that the methods that
    do not reach the check can still be stated. *)
Definition env_api_key_found_as_shipped (w : World) (self : FredBase)
    : Py bool :=
  raise SyntaxError "invalid syntax".

(** [_viable_api_key] over the check as shipped. *)
Definition _viable_api_key_as_shipped (w : World) (self : FredBase)
    : Py string :=
  match api_key self with
  | None =>
      match api_key_file self with
      | None =>
          found ← env_api_key_found_as_shipped w self;
          if negb found then
            raise AttributeError "Cannot locate a FRED API key"
          else mret "env"
      | Some _ => mret "file"
      end
  | Some _ => mret "attribute"
  end.

(** [_make_request_url] over the check as shipped. *)
Definition _make_request_url_as_shipped (w : World) (self : FredBase)
    (var_url : string) : Py (option string) :=
  key_to_use ← _viable_api_key_as_shipped w self;
  let url_base := [url_base self; var_url; "&file_type=json&api_key="] in
  let base := PyStr.join EmptyString url_base in
  if String.eqb key_to_use "attribute" then
    url ← concat_str base (api_key self); mret (Some url)
  else
    from_env ←
      (if String.eqb key_to_use "env" then
         try_except
           (v ← environ_item w FRED_API_KEY; mret (Some (base +:+ v)))
           KeyError
           (fun sans =>
              _ ← print (exn_msg sans +:+ " " +:+ " no longer found in environment");
              mret None)
       else mret None);
    match from_env with
    | Some url => mret (Some url)
    | None =>
        if String.eqb key_to_use "file" then
          k ← _read_api_key_file w self;
          url ← concat_str base k; mret (Some url)
        else mret None
    end.

(** [_get_realtime_date].  In the [else] branches the source rebinds the
    argument to [str] of itself and does not use it again; [str] does not
    fail on the values modelled, so the [except TypeError: pass] handlers
    are not reached. *)
Definition _get_realtime_date (self : FredBase)
    (realtime_start' realtime_end' : value) : string :=
  let rt_start := "&realtime_start=" in
  let rt_end := "&realtime_end=" in
  let rt_start :=
    if is_none realtime_start' then rt_start +:+ realtime_start self
    else let realtime_start' := VStr (py_str realtime_start') in rt_start in
  let rt_end :=
    if is_none realtime_end' then rt_end +:+ realtime_end self
    else let realtime_end' := VStr (py_str realtime_end') in rt_end in
  rt_start +:+ rt_end.

(** [_append_id_to_url] *)
Definition _append_id_to_url (a_url_prefix : string) (an_int_id : option Z)
    (a_str_id : option string) : Py string :=
  match an_int_id, a_str_id with
  | None, None => raise ValueError "No id argument given, cannot append to url"
  | _, _ =>
      let passed_id :=
        match an_int_id with
        | Some n => VInt n
        | None => match a_str_id with Some s => VStr s | None => VNone end
        end in
      mret (a_url_prefix +:+ py_str passed_id)
  end.

(** [_join_strings_by].  When the join fails the handler prints and the
    method goes on to [return fused_str], a name never bound. *)
Definition _join_strings_by (strings : value) (use_str : option string)
    : Py string :=
  match use_str with
  | None => raise TypeError "strings and use_str are both required"
  | Some sep =>
      if is_none strings then
        raise TypeError "strings and use_str are both required"
      else
        fused_str ←
          try_except
            (match py_join sep strings with
             | Some fused => mret (Some fused)
             | None => raise TypeError "can only join an iterable of str"
             end)
            TypeError
            (fun _ => _ ← print ("Unable to join strings using " +:+ sep);
                      mret None);
        match fused_str with
        | Some fused => mret fused
        | None =>
            raise UnboundLocalError
              "cannot access local variable 'fused_str'"
        end
  end.

(** One turn of the loop of [_add_optional_params] for the key [k]: the
    URL so far and the table, both as the turn leaves them. *)
Definition add_param (k : string) (st : string * dict) : Py (string * dict) :=
  let '(new_url_string, optional_params) := st in
  v ← dict_item k optional_params;
  if is_none v then mret (new_url_string, optional_params)
  else
    optional_params ←
      (if String.eqb k INCLUDE_EMPTY then
         try_except
           (mret (dict_set k (VStr (PyStr.lower (py_str v))) optional_params))
           TypeError
           (fun _ =>
              _ ← print ("Cannot cast include_empty to str, " +:+
                         "cannot create request url to fetch" +:+ " data");
              mret optional_params)
       else mret optional_params);
    optional_params ←
      (if PyStr.contains "tag_names" k then
         tag_names ← dict_item k optional_params;
         try_except
           (str_names ← _join_strings_by tag_names (Some ";");
            let str_names :=
              PyStr.replace PyStr.space PyStr.plus (PyStr.strip str_names) in
            mret (dict_set k (VStr str_names) optional_params))
           TypeError
           (fun _ => _ ← print "Cannot add tag_names to FRED query url";
                     mret optional_params)
       else mret optional_params);
    try_except
      (v' ← dict_item k optional_params;
       let a_parameter_string := k +:+ py_str v' in
       mret (new_url_string +:+ a_parameter_string, optional_params))
      TypeError
      (fun _ =>
         v' ← dict_item k optional_params;
         match v' with
         | VStr s =>
             _ ← print (k +:+ " " +:+ s +:+ " cannot be cast to str");
             mret (new_url_string, optional_params)
         | _ => raise TypeError "can only concatenate str to str"
         end).

Fixpoint for_each {S : Type} (body : string -> S -> Py S) (ks : list string)
    (s : S) : Py S :=
  match ks with
  | [] => mret s
  | k :: rest => s' ← body k s; for_each body rest s'
  end.

(** [_add_optional_params]: the returned URL and the caller's table as the
    call leaves it. *)
Definition _add_optional_params (og_url_string : string)
    (optional_params : dict) : Py (string * dict) :=
  let new_url_string := og_url_string in
  for_each add_param (keys optional_params) (new_url_string, optional_params).

(** * Specification-side definitions *)

(** The fields [__init__] fills with constants. *)
Definition constants_set (self : FredBase) : Prop :=
  url_base self = URL_BASE
  /\ realtime_start self = "1776-07-04"
  /\ realtime_end self = "9999-12-31".

(** The text before the first line ending: the first line of a file,
    stated without the reading machinery. *)
Fixpoint first_line (s : string) : string :=
  match s with
  | String c t =>
      if Ascii.eqb c PyStr.LF || Ascii.eqb c PyStr.CR then EmptyString
      else String c (first_line t)
  | EmptyString => EmptyString
  end.

(** The three places a credential can come from, in the words of the
    specification. *)
Inductive source : Type := Explicit | File | Environment.

(** The name [_viable_api_key] returns for a source. *)
Definition source_name (s : source) : string :=
  match s with
  | Explicit => "attribute"
  | File => "file"
  | Environment => "env"
  end.

(** Fixed precedence: explicit string, then file path, then environment
    variable; [None] when all three are missing. *)
Definition select_source (key file env : option string) : option source :=
  match key with
  | Some _ => Some Explicit
  | None =>
      match file with
      | Some _ => Some File
      | None => match env with Some _ => Some Environment | None => None end
      end
  end.

(** The credential a source holds: the key string itself, the trimmed
    first line of the key file, the value of the environment variable. *)
Definition credential_of (w : World) (self : FredBase) (s : source)
    : option string :=
  match s with
  | Explicit => api_key self
  | File =>
      f ← api_key_file self;
      match files w !! f with
      | Some (RegularFile content) => Some (PyStr.strip (first_line content))
      | _ => None
      end
  | Environment => environ w !! FRED_API_KEY
  end.

(** What [_add_optional_params] does to one entry of the table, stated
    without the loop.  [lowered] is the value after the
    [include_release_dates_with_no_data] step, [stored] the value the
    table holds for the key afterwards, [text] what the entry adds to the
    URL; [entry_ok] holds for the entries on which the loop does not
    raise. *)
Definition lowered (k : string) (v : value) : value :=
  if String.eqb k INCLUDE_EMPTY then VStr (PyStr.lower (py_str v)) else v.

Definition encode_tags (joined : string) : string :=
  PyStr.replace PyStr.space PyStr.plus (PyStr.strip joined).

Definition stored (k : string) (v : value) : value :=
  if is_none v then v
  else if PyStr.contains "tag_names" k then
    match py_join ";" (lowered k v) with
    | Some joined => VStr (encode_tags joined)
    | None => lowered k v
    end
  else lowered k v.

Definition entry_ok (kv : string * value) : bool :=
  is_none kv.2 || negb (PyStr.contains "tag_names" kv.1)
  || bool_decide (is_Some (py_join ";" (lowered kv.1 kv.2))).

Definition text (k : string) (v : value) : string :=
  if is_none v then EmptyString else k +:+ py_str (stored k v).

Definition texts (d : dict) : string :=
  fold_right (fun kv acc => text kv.1 kv.2 +:+ acc) EmptyString d.

Definition stored_table (d : dict) : dict :=
  List.map (fun kv => (kv.1, stored kv.1 kv.2)) d.

(** * Sample worlds and objects *)

Definition no_network : string -> get_result := fun _ => Fails.


Definition KEY_PATH : string := "/home/user/fred_key.txt".

Definition w_empty : World := mk_world ∅ ∅ no_network.

Definition w_env : World :=
  mk_world {[ FRED_API_KEY := "abc123" ]} ∅ no_network.

Definition w_file : World :=
  mk_world {[ FRED_API_KEY := "abc123" ]}
    {[ KEY_PATH :=
         RegularFile
           ("  f1le-key " +:+ String PyStr.CR (String PyStr.LF "second line")) ]}
    no_network.


Definition fred (key file : option string) : FredBase :=
  mk_FredBase "1776-07-04" "9999-12-31" URL_BASE key file false.

Definition sample_table : dict :=
  [("&limit=", VInt 23); ("&offset=", VNone)].

(** The entries on which [_join_strings_by] cannot join: the name has
    [tag_names], the value is not [None] and is neither a string nor a list
    of strings. *)
Definition unjoinable_tags (kv : string * value) : bool :=
  negb (is_none kv.2) && PyStr.contains "tag_names" kv.1
  && match py_join ";" kv.2 with Some _ => false | None => true end.

(** The names the loop of [_add_optional_params] passes through: not the
    [include_release_dates_with_no_data] name and without [tag_names]. *)
Definition plain_name (k : string) : bool :=
  negb (String.eqb k INCLUDE_EMPTY) && negb (PyStr.contains "tag_names" k).

(** What is raised when [_join_strings_by] returns its unbound name. *)
Definition UNBOUND_FUSED : exn :=
  mk_exn UnboundLocalError "cannot access local variable 'fused_str'".

Definition JOIN_DIAGNOSTIC : string := "Unable to join strings using ;".

(** A world whose key path is a directory. *)
Definition w_dir : World :=
  mk_world {[ FRED_API_KEY := "abc123" ]} {[ KEY_PATH := Directory ]}
    no_network.


(** * Properties *)

(** ** Evaluation checks *)

Example py_str_true : py_str (VBool true) = "True".
Proof. reflexivity. Qed.

Example py_str_int : py_str (VInt (-23)) = "-23".
Proof. vm_compute. reflexivity. Qed.

Example py_str_list :
  py_str (VList [VStr "a b"; VInt 7; VNone]) = "['a b', 7, None]".
Proof. vm_compute. reflexivity. Qed.

Example strip_ex :
  PyStr.strip ("  usa trade " +:+ String PyStr.LF EmptyString) = "usa trade".
Proof. reflexivity. Qed.

(** ** String facts *)

Lemma app_empty_l (s : string) : EmptyString +:+ s = s.
Proof. reflexivity. Qed.

Lemma app_cons (c : ascii) (s t : string) :
  String c s +:+ t = String c (s +:+ t).
Proof. reflexivity. Qed.

Lemma app_assoc_str (s t u : string) : (s +:+ t) +:+ u = s +:+ t +:+ u.
Proof.
  induction s as [|c s IH]; [reflexivity|].
  rewrite !app_cons. by rewrite IH.
Qed.

Lemma rstrip_snoc_space (s : string) (c : ascii) :
  PyStr.isspace c = true ->
  PyStr.rstrip (s +:+ String c EmptyString) = PyStr.rstrip s.
Proof.
  intros Hc. induction s as [|a s IH].
  - rewrite app_empty_l. simpl. by rewrite Hc.
  - rewrite app_cons. simpl. by rewrite IH.
Qed.

Lemma lstrip_snoc_space (s : string) (c : ascii) :
  PyStr.isspace c = true ->
  PyStr.lstrip (s +:+ String c EmptyString) = PyStr.lstrip s
  \/ PyStr.lstrip (s +:+ String c EmptyString)
     = PyStr.lstrip s +:+ String c EmptyString.
Proof.
  intros Hc. induction s as [|a s IH].
  - left. rewrite app_empty_l. simpl. by rewrite Hc.
  - rewrite app_cons. simpl. destruct (PyStr.isspace a); [exact IH|].
    right. by rewrite app_cons.
Qed.

Lemma strip_snoc_space (s : string) (c : ascii) :
  PyStr.isspace c = true ->
  PyStr.strip (s +:+ String c EmptyString) = PyStr.strip s.
Proof.
  intros Hc. unfold PyStr.strip.
  destruct (lstrip_snoc_space s c Hc) as [-> | ->]; [done|].
  by apply rstrip_snoc_space.
Qed.

Lemma readline_first_line (s : string) :
  PyStr.readline s = first_line s
  \/ PyStr.readline s = first_line s +:+ String PyStr.LF EmptyString.
Proof.
  induction s as [|c s IH]; [by left|]. simpl.
  destruct (Ascii.eqb c PyStr.LF || Ascii.eqb c PyStr.CR).
  - by right.
  - destruct IH as [-> | ->]; [by left | right]. by rewrite app_cons.
Qed.

Lemma strip_readline (s : string) :
  PyStr.strip (PyStr.readline s) = PyStr.strip (first_line s).
Proof.
  destruct (readline_first_line s) as [-> | ->]; [done|].
  by apply strip_snoc_space.
Qed.

Lemma has_char_replace (old new : ascii) (s : string) :
  old <> new -> PyStr.has_char old (PyStr.replace old new s) = false.
Proof.
  intros Hne. induction s as [|c s IH]; [done|].
  unfold PyStr.replace in *. simpl. rewrite IH, orb_false_r.
  destruct (Ascii.eqb_spec c old) as [->|Hc].
  - by apply Ascii.eqb_neq.
  - apply Ascii.eqb_neq. congruence.
Qed.

(** ** Credential sources *)

Lemma init_constants (w : World) (key file : option string) (self : FredBase)
    (out : list string) :
  run (init w key file) = Return self out -> constants_set self.
Proof.
  unfold run, init. intros H.
  destruct key as [k|], file as [f|]; simpl in H;
    try (destruct (env_api_key_found w _); injection H as <- _; by repeat split).
  unfold set_api_key_file, mbind, Py_bind in H.
  destruct (negb (isfile w f)); [discriminate|].
  injection H as <- _. by repeat split.
Qed.

Lemma set_api_key_file_constants (w : World) (self self' : FredBase)
    (file : option string) (r : bool) (out : list string) :
  constants_set self ->
  run (set_api_key_file w self file) = Return (self', r) out ->
  constants_set self'.
Proof.
  unfold run, set_api_key_file. intros Hc H.
  destruct file as [f|]; [|discriminate].
  destruct (negb (isfile w f)); [discriminate|].
  by injection H as <- _ _.
Qed.

Lemma env_api_key_found_lookup (w : World) (self : FredBase) :
  env_api_key_found w self = bool_decide (is_Some (environ w !! FRED_API_KEY)).
Proof.
  unfold env_api_key_found.
  destruct (environ w !! FRED_API_KEY) as [v|] eqn:E.
  - rewrite bool_decide_eq_true_2 by (apply elem_of_dom; eauto).
    symmetry. apply bool_decide_eq_true_2. eauto.
  - rewrite bool_decide_eq_false_2 by (rewrite elem_of_dom, E; by intros [? ?]).
    symmetry. apply bool_decide_eq_false_2. by intros [? ?].
Qed.


Lemma viable_api_key_select (w : World) (self : FredBase) :
  run (_viable_api_key w self) =
    match select_source (api_key self) (api_key_file self)
            (environ w !! FRED_API_KEY) with
    | Some s => Return (source_name s) []
    | None => Raise (mk_exn AttributeError "Cannot locate a FRED API key") []
    end.
Proof.
  unfold run, _viable_api_key, select_source.
  destruct (api_key self), (api_key_file self); try reflexivity.
  rewrite env_api_key_found_lookup.
  destruct (environ w !! FRED_API_KEY) as [v|]; reflexivity.
Qed.

Lemma read_api_key_file_present (w : World) (self : FredBase)
    (path content : string) (out : list string) :
  api_key_file self = Some path ->
  files w !! path = Some (RegularFile content) ->
  _read_api_key_file w self out
  = Return (Some (PyStr.strip (first_line content))) out.
Proof.
  intros Hp Hf. unfold _read_api_key_file, try_except, open_r, mbind, Py_bind.
  rewrite Hp, Hf. simpl. by rewrite strip_readline.
Qed.

Lemma read_api_key_file_missing (w : World) (self : FredBase) (path : string)
    (out : list string) :
  api_key_file self = Some path ->
  files w !! path = None ->
  _read_api_key_file w self out
  = Return None
      (out ++ ["[Errno 2] No such file or directory: " +:+ PyStr.repr path]).
Proof.
  intros Hp Hf. unfold _read_api_key_file, try_except, open_r, mbind, Py_bind.
  rewrite Hp, Hf. reflexivity.
Qed.

(** The URL built from the credential of the selected source. *)
Lemma make_request_url_selected (w : World) (self : FredBase) (s : source)
    (key var_url : string) :
  select_source (api_key self) (api_key_file self) (environ w !! FRED_API_KEY)
  = Some s ->
  credential_of w self s = Some key ->
  run (_make_request_url w self var_url)
  = Return
      (Some (url_base self +:+ var_url +:+ "&file_type=json&api_key=" +:+ key))
      [].
Proof.
  intros Hsel Hcred.
  pose proof (viable_api_key_select w self) as Hv. rewrite Hsel in Hv.
  unfold run in *. unfold _make_request_url, mbind, Py_bind. rewrite Hv.
  unfold select_source in Hsel.
  destruct (api_key self) as [k|] eqn:Ek.
  { injection Hsel as <-. simpl in *. rewrite Ek in *.
    injection Hcred as ->. simpl. by rewrite !app_assoc_str. }
  destruct (api_key_file self) as [f|] eqn:Ef.
  { injection Hsel as <-. simpl in Hcred. rewrite Ef in Hcred. simpl in Hcred.
    destruct (files w !! f) as [[content|]|] eqn:Efs; try discriminate.
    injection Hcred as <-. simpl.
    rewrite (read_api_key_file_present w self f content [] Ef Efs).
    simpl. by rewrite !app_assoc_str. }
  destruct (environ w !! FRED_API_KEY) as [v|] eqn:Eenv; [|discriminate].
  injection Hsel as <-. simpl in Hcred. rewrite Eenv in Hcred.
  injection Hcred as ->. simpl.
  unfold try_except, environ_item, mbind, Py_bind. rewrite Eenv. simpl.
  by rewrite !app_assoc_str.
Qed.

(** The repaired reading.  With the [elif] of [env_api_key_found] read as
    [if], credential resolution follows the fixed precedence explicit key
    string, then key file path, then environment variable: for every world
    and every object, [_viable_api_key] returns the name of the source
    [select_source] picks, and raises only when it picks none.  The sources
    are not merged: the request URL carries the credential of the selected
    source alone, whatever the other two hold.  The code as shipped is in
    [shipped_precedence_stops_before_environment]. *)
Theorem credential_precedence (w : World) (self : FredBase) :
  run (_viable_api_key w self) =
    match select_source (api_key self) (api_key_file self)
            (environ w !! FRED_API_KEY) with
    | Some s => Return (source_name s) []
    | None => Raise (mk_exn AttributeError "Cannot locate a FRED API key") []
    end
  /\ (forall k, api_key self = Some k ->
        run (_viable_api_key w self) = Return "attribute" [])
  /\ (forall f, api_key self = None -> api_key_file self = Some f ->
        run (_viable_api_key w self) = Return "file" [])
  /\ (forall v, api_key self = None -> api_key_file self = None ->
        environ w !! FRED_API_KEY = Some v ->
        run (_viable_api_key w self) = Return "env" [])
  /\ (forall s key var_url,
        select_source (api_key self) (api_key_file self)
          (environ w !! FRED_API_KEY) = Some s ->
        credential_of w self s = Some key ->
        run (_make_request_url w self var_url)
        = Return
            (Some (url_base self +:+ var_url +:+ "&file_type=json&api_key="
                   +:+ key)) []).
Proof.
  split; [apply viable_api_key_select|].
  split; [intros k Hk; by rewrite viable_api_key_select, Hk|].
  split; [intros f Hk Hf; by rewrite viable_api_key_select, Hk, Hf|].
  split; [intros v Hk Hf He; by rewrite viable_api_key_select, Hk, Hf, He|].
  intros s key var_url. apply make_request_url_selected.
Qed.

(** The repaired reading.  With the [elif] read as [if], no explicit key
    string, no key file path and no [FRED_API_KEY] in the environment make
    [_viable_api_key] raise the missing-credential error
    ([AttributeError]) and return no source; URL building and fetching
    raise it too.  The code as shipped is in
    [shipped_missing_credential_error_unreached]. *)
Theorem no_credential_raises (w : World) (self : FredBase) :
  api_key self = None ->
  api_key_file self = None ->
  environ w !! FRED_API_KEY = None ->
  run (_viable_api_key w self)
  = Raise (mk_exn AttributeError "Cannot locate a FRED API key") []
  /\ (forall src out, run (_viable_api_key w self) <> Return src out)
  /\ (forall p, run (_make_request_url w self p)
        = Raise (mk_exn AttributeError "Cannot locate a FRED API key") [])
  /\ (forall p, run (_fetch_data w self p)
        = Raise (mk_exn AttributeError "Cannot locate a FRED API key") []).
Proof.
  intros Hk Hf He.
  assert (Hv : run (_viable_api_key w self)
               = Raise (mk_exn AttributeError "Cannot locate a FRED API key") []).
  { rewrite viable_api_key_select, Hk, Hf, He. reflexivity. }
  assert (Hu : forall p, run (_make_request_url w self p)
               = Raise (mk_exn AttributeError "Cannot locate a FRED API key") []).
  { intros p. unfold run in *. unfold _make_request_url, mbind, Py_bind.
    by rewrite Hv. }
  repeat split; [exact Hv | | exact Hu |].
  - intros src out. by rewrite Hv.
  - intros p. unfold run in *. unfold _fetch_data, mbind, Py_bind.
    by rewrite (Hu p).
Qed.

(** The repaired reading.  With the [elif] read as [if] and the
    environment variable as the only source, [_viable_api_key] reports
    [env], and for every path fragment the URL built ends with the value
    of the variable as its credential.  The code as shipped is in
    [shipped_environment_source_unreached]. *)
Theorem env_only_credential (w : World) (self : FredBase) (v : string) :
  api_key self = None ->
  api_key_file self = None ->
  environ w !! FRED_API_KEY = Some v ->
  run (_viable_api_key w self) = Return "env" []
  /\ forall var_url,
       run (_make_request_url w self var_url)
       = Return
           (Some ((url_base self +:+ var_url +:+ "&file_type=json&api_key=")
                  +:+ v)) [].
Proof.
  intros Hk Hf He. split.
  - rewrite viable_api_key_select, Hk, Hf, He. reflexivity.
  - intros var_url. rewrite !app_assoc_str.
    apply (make_request_url_selected w self Environment).
    + by rewrite Hk, Hf, He.
    + exact He.
Qed.


(** C8.  Reading the key file returns the first line of the file at the
    configured path with surrounding white space removed.  Setting a key
    file path at which there is no file raises [FileNotFoundError] and
    leaves no new object; a file that is missing when it is read is
    tolerated: the read prints the error and returns [None], raising
    nothing. *)
Theorem key_file_read_and_set (w : World) (self : FredBase) (path : string) :
  (forall content,
     api_key_file self = Some path ->
     files w !! path = Some (RegularFile content) ->
     run (_read_api_key_file w self)
     = Return (Some (PyStr.strip (first_line content))) [])
  /\ (isfile w path = false ->
      run (set_api_key_file w self (Some path))
      = Raise (mk_exn FileNotFoundError ("Can't find " +:+ path +:+ ", on path"))
          []
      /\ run (init w None (Some path))
         = Raise (mk_exn FileNotFoundError
                    ("Can't find " +:+ path +:+ ", on path")) [])
  /\ (api_key_file self = Some path ->
      files w !! path = None ->
      run (_read_api_key_file w self)
      = Return None
          ["[Errno 2] No such file or directory: " +:+ PyStr.repr path]).
Proof.
  split; [|split].
  - intros content Hp Hf.
    exact (read_api_key_file_present w self path content [] Hp Hf).
  - intros Hf. split.
    + unfold run, set_api_key_file. by rewrite Hf.
    + unfold run, init, set_api_key_file, mbind, Py_bind. by rewrite Hf.
  - intros Hp Hf. exact (read_api_key_file_missing w self path [] Hp Hf).
Qed.

(** C10.  [_get_realtime_date] discards an argument that is not [None]:
    after [&realtime_start=] (and after [&realtime_end=]) the result has
    the default date when the argument is [None] and nothing otherwise, so
    the result is the same for every two arguments that are not [None]. *)
Theorem realtime_argument_discarded (self : FredBase)
    (start stop : value) :
  constants_set self ->
  _get_realtime_date self start stop
  = "&realtime_start=" +:+ (if is_none start then "1776-07-04" else EmptyString)
    +:+ "&realtime_end=" +:+ (if is_none stop then "9999-12-31" else EmptyString)
  /\ (forall start', start <> VNone -> start' <> VNone ->
        _get_realtime_date self start stop
        = _get_realtime_date self start' stop)
  /\ (forall stop', stop <> VNone -> stop' <> VNone ->
        _get_realtime_date self start stop
        = _get_realtime_date self start stop')
  /\ (start <> VNone -> stop <> VNone ->
        _get_realtime_date self start stop = "&realtime_start=&realtime_end=").
Proof.
  intros (_ & Hs & He). unfold _get_realtime_date. rewrite Hs, He.
  repeat split.
  - by destruct start, stop.
  - intros start' H H'. by destruct start, start'.
  - intros stop' H H'. by destruct stop, stop'.
  - intros H H'. by destruct start, stop.
Qed.

(** ** Fetching *)




(** ** Parameter assembly *)

Lemma app_empty_r (s : string) : s +:+ EmptyString = s.
Proof. induction s as [|c s IH]; [done|]. by rewrite app_cons, IH. Qed.

Lemma dict_get_middle (k : string) (v : value) (a b : dict) :
  k ∉ keys a -> dict_get k (a ++ (k, v) :: b) = Some v.
Proof.
  induction a as [|[k' v'] a IH]; simpl; intros Hk.
  - by rewrite String.eqb_refl.
  - apply not_elem_of_cons in Hk as [Hne Hk].
    apply String.eqb_neq in Hne. rewrite Hne. by apply IH.
Qed.

Lemma dict_set_middle (k : string) (v x : value) (a b : dict) :
  k ∉ keys a -> dict_set k x (a ++ (k, v) :: b) = a ++ (k, x) :: b.
Proof.
  induction a as [|[k' v'] a IH]; simpl; intros Hk.
  - by rewrite String.eqb_refl.
  - apply not_elem_of_cons in Hk as [Hne Hk].
    apply String.eqb_neq in Hne. rewrite Hne. by rewrite IH.
Qed.

Lemma texts_app (a b : dict) : texts (a ++ b) = texts a +:+ texts b.
Proof.
  induction a as [|[k v] a IH]; [done|].
  unfold texts in *. simpl. by rewrite IH, app_assoc_str.
Qed.

Lemma texts_cons (k : string) (v : value) (d : dict) :
  texts ((k, v) :: d) = text k v +:+ texts d.
Proof. reflexivity. Qed.

Lemma stored_table_app (a b : dict) :
  stored_table (a ++ b) = stored_table a ++ stored_table b.
Proof. apply List.map_app. Qed.

Lemma keys_stored_table (d : dict) : keys (stored_table d) = keys d.
Proof.
  unfold keys, stored_table. rewrite List.map_map. by apply List.map_ext.
Qed.

Lemma include_empty_no_tag_names :
  PyStr.contains "tag_names" INCLUDE_EMPTY = false.
Proof. reflexivity. Qed.

(** One turn of the loop on the entry it is at. *)
Lemma add_param_entry (k : string) (v : value) (a b : dict) (url : string)
    (out : list string) :
  k ∉ keys a ->
  entry_ok (k, v) = true ->
  add_param k (url, a ++ (k, v) :: b) out
  = Return (url +:+ text k v, a ++ (k, stored k v) :: b) out.
Proof.
  intros Hk Hok. unfold add_param, dict_item, text, stored, lowered.
  unfold mbind, Py_bind. rewrite (dict_get_middle k v a b Hk). simpl.
  destruct (is_none v) eqn:En; [by rewrite app_empty_r|].
  unfold entry_ok, lowered in Hok. simpl in Hok. rewrite En in Hok.
  destruct (String.eqb k INCLUDE_EMPTY) eqn:Ei.
  - apply String.eqb_eq in Ei. subst k.
    rewrite include_empty_no_tag_names. unfold try_except. simpl.
    rewrite (dict_set_middle _ v _ a b Hk).
    by rewrite (dict_get_middle _ _ a b Hk).
  - simpl. destruct (PyStr.contains "tag_names" k) eqn:Et.
    + simpl in Hok. apply bool_decide_eq_true_1 in Hok as [joined Hj].
      rewrite (dict_get_middle k v a b Hk). simpl.
      unfold _join_strings_by, try_except, mbind, Py_bind.
      rewrite En, Hj. simpl.
      rewrite (dict_set_middle _ v _ a b Hk).
      by rewrite (dict_get_middle _ _ a b Hk).
    + unfold try_except. simpl. by rewrite (dict_get_middle k v a b Hk).
Qed.

Lemma for_each_entries (b a : dict) (url : string) (out : list string) :
  NoDup (keys (a ++ b)) ->
  forallb entry_ok b = true ->
  for_each add_param (keys b) (url, a ++ b) out
  = Return (url +:+ texts b, a ++ stored_table b) out.
Proof.
  revert a url. induction b as [|[k v] b IH]; intros a url Hnd Hok.
  - simpl. by rewrite app_empty_r.
  - simpl in Hok. apply andb_true_iff in Hok as [Hkv Hb].
    assert (Hk : k ∉ keys a).
    { unfold keys in Hnd. rewrite List.map_app in Hnd.
      apply NoDup_app in Hnd as (_ & Hdisj & _).
      intros Hin. apply (Hdisj k Hin). simpl. left. }
    change (keys ((k, v) :: b)) with (k :: keys b).
    cbn [for_each]. unfold mbind at 1. unfold Py_bind at 1.
    rewrite (add_param_entry k v a b url out Hk Hkv).
    replace (a ++ (k, stored k v) :: b) with ((a ++ [(k, stored k v)]) ++ b)
      by (by rewrite <- app_assoc).
    rewrite IH; [| |exact Hb].
    + rewrite texts_cons, app_assoc_str, <- app_assoc. reflexivity.
    + unfold keys in *. rewrite !List.map_app in *. simpl in *.
      by rewrite <- app_assoc.
Qed.

(** The whole call: on a table whose entries are all [entry_ok], the
    URL gains the texts of the entries in order and the table holds the
    stored values. *)
Lemma add_optional_params_total (url : string) (d : dict) :
  NoDup (keys d) ->
  forallb entry_ok d = true ->
  run (_add_optional_params url d) = Return (url +:+ texts d, stored_table d) [].
Proof.
  intros Hnd Hok. unfold run, _add_optional_params.
  exact (for_each_entries d [] url [] Hnd Hok).
Qed.

(** The call on a table, seen from one of its entries. *)
Lemma add_optional_params_at (url : string) (pre post : dict) (k : string)
    (v : value) :
  NoDup (keys pre ++ k :: keys post) ->
  forallb entry_ok (pre ++ post) = true ->
  entry_ok (k, v) = true ->
  run (_add_optional_params url (pre ++ (k, v) :: post))
  = Return (url +:+ texts pre +:+ text k v +:+ texts post,
            stored_table pre ++ (k, stored k v) :: stored_table post) [].
Proof.
  intros Hnd Hok Hkv.
  rewrite add_optional_params_total.
  - by rewrite texts_app, texts_cons, stored_table_app.
  - unfold keys. by rewrite List.map_app.
  - rewrite forallb_app in *. simpl. rewrite Hkv.
    by apply andb_true_iff in Hok as [-> ->].
Qed.

Lemma add_optional_params_without (url : string) (pre post : dict)
    (k : string) :
  NoDup (keys pre ++ k :: keys post) ->
  forallb entry_ok (pre ++ post) = true ->
  run (_add_optional_params url (pre ++ post))
  = Return (url +:+ texts pre +:+ texts post,
            stored_table pre ++ stored_table post) [].
Proof.
  intros Hnd Hok.
  rewrite add_optional_params_total; [|..|exact Hok].
  - by rewrite texts_app, stored_table_app.
  - unfold keys. rewrite List.map_app.
    apply NoDup_app in Hnd as (Ha & Hdisj & Hb).
    apply NoDup_cons in Hb as [_ Hb].
    apply NoDup_app. repeat split; [done| |done].
    intros x Hx Hx'. apply (Hdisj x Hx). by right.
Qed.

Lemma py_join_strings (sep : string) (names : list string) :
  py_join sep (VList (VStr <$> names)) = Some (PyStr.join sep names).
Proof.
  unfold py_join. by rewrite mapM_fmap_Some.
Qed.

Lemma stored_table_changed (pre post : dict) (k : string) (v new : value) :
  k ∉ keys pre ->
  v <> new ->
  stored_table pre ++ (k, new) :: stored_table post <> pre ++ (k, v) :: post.
Proof.
  intros Hk Hne Heq.
  assert (Hget : dict_get k (stored_table pre ++ (k, new) :: stored_table post)
                 = Some new).
  { apply dict_get_middle. by rewrite keys_stored_table. }
  rewrite Heq, (dict_get_middle k v pre post Hk) in Hget. congruence.
Qed.

Lemma key_not_in_prefix (pre post : list string) (k : string) :
  NoDup (pre ++ k :: post) -> k ∉ pre.
Proof.
  intros Hnd Hin. apply NoDup_app in Hnd as (_ & Hdisj & _).
  apply (Hdisj k Hin). by left.
Qed.

Definition show_bool_lower (b : bool) : string :=
  if b then "true" else "false".

Definition show_bool (b : bool) : string :=
  if b then "True" else "False".

(** C5, as the code has it.  A parameter whose value is [None] adds
    nothing to the URL, under every name: the URL is the one built from
    the table without the entry.  A boolean is written in lower case,
    [true] or [false], under the name
    [&include_release_dates_with_no_data=]; under another name that does
    not contain [tag_names] it is written as [str] gives it, [True] or
    [False]. *)
Theorem none_and_boolean_parameters (url : string) (pre post : dict)
    (k : string) (b : bool) :
  NoDup (keys pre ++ k :: keys post) ->
  forallb entry_ok (pre ++ post) = true ->
  (run (_add_optional_params url (pre ++ (k, VNone) :: post))
   = Return (url +:+ texts pre +:+ texts post,
             stored_table pre ++ (k, VNone) :: stored_table post) []
   /\ run (_add_optional_params url (pre ++ post))
      = Return (url +:+ texts pre +:+ texts post,
                stored_table pre ++ stored_table post) [])
  /\ (k = INCLUDE_EMPTY ->
      run (_add_optional_params url (pre ++ (k, VBool b) :: post))
      = Return (url +:+ texts pre +:+ (k +:+ show_bool_lower b) +:+ texts post,
                stored_table pre ++ (k, VStr (show_bool_lower b))
                  :: stored_table post) [])
  /\ (k <> INCLUDE_EMPTY -> PyStr.contains "tag_names" k = false ->
      run (_add_optional_params url (pre ++ (k, VBool b) :: post))
      = Return (url +:+ texts pre +:+ (k +:+ show_bool b) +:+ texts post,
                stored_table pre ++ (k, VBool b) :: stored_table post) []).
Proof.
  intros Hnd Hok. repeat split.
  - by rewrite (add_optional_params_at url pre post k VNone Hnd Hok).
  - by apply (add_optional_params_without url pre post k).
  - intros ->.
    rewrite (add_optional_params_at url pre post _ (VBool b) Hnd Hok);
      by destruct b.
  - intros Hne Ht. apply String.eqb_neq in Hne.
    rewrite (add_optional_params_at url pre post _ (VBool b) Hnd Hok).
    + unfold text, stored, lowered. rewrite Ht, Hne. by destruct b.
    + unfold entry_ok. simpl. by rewrite Ht.
Qed.

(** C6.  Under every name that contains [tag_names], a list of strings
    is joined with [;], trimmed, and has each space replaced with [+]:
    that text follows the name in the URL and no space is left in it.
    The value [["inflation", "usa trade"]] appears as
    [inflation;usa+trade]. *)
Theorem tag_names_encoding (url : string) (pre post : dict) (k : string)
    (names : list string) :
  NoDup (keys pre ++ k :: keys post) ->
  forallb entry_ok (pre ++ post) = true ->
  PyStr.contains "tag_names" k = true ->
  let rendered :=
    PyStr.replace PyStr.space PyStr.plus (PyStr.strip (PyStr.join ";" names)) in
  run (_add_optional_params url (pre ++ (k, VList (VStr <$> names)) :: post))
  = Return (url +:+ texts pre +:+ (k +:+ rendered) +:+ texts post,
            stored_table pre ++ (k, VStr rendered) :: stored_table post) []
  /\ PyStr.has_char PyStr.space rendered = false
  /\ run (_add_optional_params url
            [("&tag_names=", VList [VStr "inflation"; VStr "usa trade"])])
     = Return (url +:+ "&tag_names=inflation;usa+trade",
               [("&tag_names=", VStr "inflation;usa+trade")]) [].
Proof.
  intros Hnd Hok Ht rendered.
  assert (Hni : String.eqb k INCLUDE_EMPTY = false).
  { apply String.eqb_neq. intros ->.
    by rewrite include_empty_no_tag_names in Ht. }
  split; [|split].
  - rewrite (add_optional_params_at url pre post _ _ Hnd Hok).
    + unfold text, stored, lowered. simpl.
      by rewrite Ht, Hni, py_join_strings.
    + unfold entry_ok, lowered. simpl. rewrite Ht, Hni, py_join_strings.
      simpl. first [done | apply bool_decide_eq_true_2; eauto].
  - by apply has_char_replace.
  - reflexivity.
Qed.

(** C9, as the code has it.  [_add_optional_params] writes into the table
    it is given.  For the name [&include_release_dates_with_no_data=] with
    a value that is not [None], and for every name that contains
    [tag_names] with a joinable value (a string or a list of strings), the
    entry of the caller's table holds the transformed string after the
    call; the table then differs from the one passed in whenever the value
    was not already that string, as for every boolean and every list. *)
Theorem table_mutated_in_place (url : string) (pre post : dict) (k : string)
    (v new : value) :
  NoDup (keys pre ++ k :: keys post) ->
  forallb entry_ok (pre ++ post) = true ->
  (k = INCLUDE_EMPTY /\ v <> VNone /\ new = VStr (PyStr.lower (py_str v)))
  \/ (PyStr.contains "tag_names" k = true /\
      exists joined, py_join ";" v = Some joined /\
        new = VStr (PyStr.replace PyStr.space PyStr.plus (PyStr.strip joined))) ->
  let after := stored_table pre ++ (k, new) :: stored_table post in
  (exists url',
     run (_add_optional_params url (pre ++ (k, v) :: post))
     = Return (url', after) [])
  /\ dict_get k after = Some new
  /\ (v <> new -> after <> pre ++ (k, v) :: post)
  /\ ((exists b, v = VBool b) \/ (exists items, v = VList items) -> v <> new).
Proof.
  intros Hnd Hok Hcase after.
  assert (Hk : k ∉ keys pre) by exact (key_not_in_prefix _ _ _ Hnd).
  assert (Hst : stored k v = new /\ entry_ok (k, v) = true /\ exists s, new = VStr s).
  { destruct Hcase as [(-> & Hv & ->) | (Ht & joined & Hj & ->)].
    - unfold stored, entry_ok, lowered.
      rewrite String.eqb_refl, include_empty_no_tag_names.
      destruct v; try done; simpl; eauto.
    - assert (Hni : String.eqb k INCLUDE_EMPTY = false).
      { apply String.eqb_neq. intros ->.
        by rewrite include_empty_no_tag_names in Ht. }
      unfold stored, entry_ok, lowered. simpl. rewrite Ht, Hni, Hj. simpl.
      destruct v; try done; simpl; repeat split; eauto;
        try (apply bool_decide_eq_true_2; eauto). }
  destruct Hst as (Hs & He & s & Hnew).
  repeat split.
  - eexists. rewrite (add_optional_params_at url pre post k v Hnd Hok He).
    by rewrite Hs.
  - apply dict_get_middle. by rewrite keys_stored_table.
  - intros Hne. by apply stored_table_changed.
  - intros [[b ->] | [items ->]]; by rewrite Hnew.
Qed.

(** ** The claims at sample inputs *)

Lemma credential_precedence_witness :
  run (_viable_api_key w_file (fred (Some "k3y") (Some KEY_PATH)))
  = Return "attribute" []
  /\ run (_viable_api_key w_file (fred None (Some KEY_PATH))) = Return "file" []
  /\ run (_viable_api_key w_env (fred None None)) = Return "env" []
  /\ run (_make_request_url w_file (fred None (Some KEY_PATH)) "series?series_id=GDP")
     = Return
         (Some (URL_BASE +:+ "series?series_id=GDP"
                +:+ "&file_type=json&api_key=" +:+ "f1le-key")) [].
Proof.
  split; [|split; [|split]].
  - exact (proj1 (proj2 (credential_precedence w_file
                           (fred (Some "k3y") (Some KEY_PATH))))
             "k3y" eq_refl).
  - exact (proj1 (proj2 (proj2 (credential_precedence w_file
                                  (fred None (Some KEY_PATH)))))
             KEY_PATH eq_refl eq_refl).
  - exact (proj1 (proj2 (proj2 (proj2 (credential_precedence w_env
                                         (fred None None)))))
             "abc123" eq_refl eq_refl eq_refl).
  - exact (proj2 (proj2 (proj2 (proj2 (credential_precedence w_file
                                         (fred None (Some KEY_PATH))))))
             File "f1le-key" "series?series_id=GDP" eq_refl eq_refl).
Defined.

Lemma no_credential_raises_witness :
  run (_viable_api_key w_empty (fred None None))
  = Raise (mk_exn AttributeError "Cannot locate a FRED API key") []
  /\ (forall src out,
        run (_viable_api_key w_empty (fred None None)) <> Return src out)
  /\ (forall p, run (_make_request_url w_empty (fred None None) p)
        = Raise (mk_exn AttributeError "Cannot locate a FRED API key") [])
  /\ (forall p, run (_fetch_data w_empty (fred None None) p)
        = Raise (mk_exn AttributeError "Cannot locate a FRED API key") []).
Proof.
  apply (no_credential_raises w_empty (fred None None)); reflexivity.
Defined.

Lemma env_only_credential_witness :
  run (_viable_api_key w_env (fred None None)) = Return "env" []
  /\ forall var_url,
       run (_make_request_url w_env (fred None None) var_url)
       = Return
           (Some ((URL_BASE +:+ var_url +:+ "&file_type=json&api_key=")
                  +:+ "abc123")) [].
Proof.
  apply (env_only_credential w_env (fred None None) "abc123"); reflexivity.
Defined.


Lemma key_file_read_and_set_witness :
  run (_read_api_key_file w_file (fred None (Some KEY_PATH)))
  = Return (Some "f1le-key") []
  /\ run (set_api_key_file w_env (fred None None) (Some KEY_PATH))
     = Raise (mk_exn FileNotFoundError "Can't find /home/user/fred_key.txt, on path")
         []
  /\ run (_read_api_key_file w_env (fred None (Some KEY_PATH)))
     = Return None
         ["[Errno 2] No such file or directory: '/home/user/fred_key.txt'"].
Proof.
  split; [|split].
  - exact (proj1 (key_file_read_and_set w_file (fred None (Some KEY_PATH)) KEY_PATH)
             _ eq_refl eq_refl).
  - exact (proj1 (proj1 (proj2 (key_file_read_and_set w_env (fred None None)
                                  KEY_PATH)) eq_refl)).
  - exact (proj2 (proj2 (key_file_read_and_set w_env (fred None (Some KEY_PATH))
                           KEY_PATH)) eq_refl eq_refl).
Defined.

Lemma realtime_argument_discarded_witness :
  _get_realtime_date (fred None None) (VStr "2020-01-01") VNone
  = "&realtime_start=&realtime_end=9999-12-31"
  /\ _get_realtime_date (fred None None) (VStr "2020-01-01") VNone
     = _get_realtime_date (fred None None) (VStr "1999-12-31") VNone.
Proof.
  split.
  - exact (proj1 (realtime_argument_discarded (fred None None)
                    (VStr "2020-01-01") VNone
                    (conj eq_refl (conj eq_refl eq_refl)))).
  - refine (proj1 (proj2 (realtime_argument_discarded (fred None None)
                            (VStr "2020-01-01") VNone
                            (conj eq_refl (conj eq_refl eq_refl))))
              (VStr "1999-12-31") _ _); discriminate.
Defined.



Lemma none_and_boolean_parameters_witness :
  (run (_add_optional_params "releases/dates?"
          ([("&limit=", VInt 23)] ++ (INCLUDE_EMPTY, VNone) :: [("&offset=", VNone)]))
   = Return ("releases/dates?&limit=23",
             [("&limit=", VInt 23); (INCLUDE_EMPTY, VNone); ("&offset=", VNone)])
       []
   /\ run (_add_optional_params "releases/dates?"
             ([("&limit=", VInt 23)] ++ [("&offset=", VNone)]))
      = Return ("releases/dates?&limit=23",
                [("&limit=", VInt 23); ("&offset=", VNone)]) [])
  /\ run (_add_optional_params "releases/dates?"
            ([("&limit=", VInt 23)] ++ (INCLUDE_EMPTY, VBool true)
               :: [("&offset=", VNone)]))
     = Return
         ("releases/dates?&limit=23&include_release_dates_with_no_data=true",
          [("&limit=", VInt 23); (INCLUDE_EMPTY, VStr "true");
           ("&offset=", VNone)]) []
  /\ run (_add_optional_params "releases/dates?"
            ([("&limit=", VInt 23)] ++ ("&exact=", VBool true)
               :: [("&offset=", VNone)]))
     = Return ("releases/dates?&limit=23&exact=True",
               [("&limit=", VInt 23); ("&exact=", VBool true);
                ("&offset=", VNone)]) [].
Proof.
  split; [|split].
  - refine (proj1 (none_and_boolean_parameters "releases/dates?"
                     [("&limit=", VInt 23)] [("&offset=", VNone)]
                     INCLUDE_EMPTY true _ eq_refl));
      compute_done.
  - refine (proj1 (proj2 (none_and_boolean_parameters "releases/dates?"
                            [("&limit=", VInt 23)] [("&offset=", VNone)]
                            INCLUDE_EMPTY true _ eq_refl)) eq_refl);
      compute_done.
  - refine (proj2 (proj2 (none_and_boolean_parameters "releases/dates?"
                            [("&limit=", VInt 23)] [("&offset=", VNone)]
                            "&exact=" true _ eq_refl)) _ eq_refl);
      [compute_done | discriminate].
Defined.

(** C5 as stated fails: under a name other than
    [&include_release_dates_with_no_data=] the boolean [True] is written
    [True], not [true]. *)
Lemma boolean_other_name_capitalised :
  run (_add_optional_params "releases/dates?" [("&exact=", VBool true)])
  = Return ("releases/dates?&exact=True", [("&exact=", VBool true)]) []
  /\ PyStr.contains "true" "releases/dates?&exact=True" = false
  /\ forall d out,
       run (_add_optional_params "releases/dates?" [("&exact=", VBool true)])
       <> Return ("releases/dates?&exact=true", d) out.
Proof.
  split; [reflexivity|]. split; [reflexivity|].
  intros d out. vm_compute. discriminate.
Qed.

Lemma tag_names_encoding_witness :
  run (_add_optional_params "tags/series?"
         ([("&limit=", VInt 23)]
            ++ ("&tag_names=", VList (VStr <$> ["inflation"; "usa trade"]))
            :: [("&offset=", VNone)]))
  = Return ("tags/series?&limit=23&tag_names=inflation;usa+trade",
            [("&limit=", VInt 23); ("&tag_names=", VStr "inflation;usa+trade");
             ("&offset=", VNone)]) []
  /\ PyStr.has_char PyStr.space "inflation;usa+trade" = false.
Proof.
  split.
  - refine (proj1 (tag_names_encoding "tags/series?" [("&limit=", VInt 23)]
                     [("&offset=", VNone)] "&tag_names="
                     ["inflation"; "usa trade"] _ eq_refl eq_refl));
      compute_done.
  - refine (proj1 (proj2 (tag_names_encoding "tags/series?"
                            [("&limit=", VInt 23)] [("&offset=", VNone)]
                            "&tag_names=" ["inflation"; "usa trade"]
                            _ eq_refl eq_refl)));
      compute_done.
Defined.

Lemma table_mutated_in_place_witness :
  (exists url',
     run (_add_optional_params "tags/series?"
            ([("&limit=", VInt 23)]
               ++ ("&exclude_tag_names=", VList [VStr "usa trade"])
               :: [("&offset=", VNone)]))
     = Return (url',
               [("&limit=", VInt 23); ("&exclude_tag_names=", VStr "usa+trade");
                ("&offset=", VNone)]) [])
  /\ [("&limit=", VInt 23); ("&exclude_tag_names=", VStr "usa+trade");
      ("&offset=", VNone)]
     <> [("&limit=", VInt 23); ("&exclude_tag_names=", VList [VStr "usa trade"]);
         ("&offset=", VNone)].
Proof.
  pose proof (table_mutated_in_place "tags/series?" [("&limit=", VInt 23)]
                [("&offset=", VNone)] "&exclude_tag_names="
                (VList [VStr "usa trade"]) (VStr "usa+trade")) as H.
  destruct H as (Hrun & _ & Hdiff & Hne).
  - compute_done.
  - reflexivity.
  - right. split; [reflexivity|]. exists "usa trade". split; reflexivity.
  - split; [exact Hrun|]. apply Hdiff, Hne. right. eauto.
Defined.

(** * Further properties of the class *)

(** ** Failure of parameter assembly *)

Lemma tag_name_not_include (k : string) :
  PyStr.contains "tag_names" k = true -> String.eqb k INCLUDE_EMPTY = false.
Proof.
  intros Ht. apply String.eqb_neq. intros ->.
  by rewrite include_empty_no_tag_names in Ht.
Qed.

Lemma entry_ok_unjoinable (kv : string * value) :
  entry_ok kv = negb (unjoinable_tags kv).
Proof.
  destruct kv as [k v]. unfold entry_ok, unjoinable_tags, lowered. simpl.
  destruct (is_none v); [done|]. simpl.
  destruct (PyStr.contains "tag_names" k) eqn:Ht; [|done]. simpl.
  rewrite (tag_name_not_include k Ht).
  destruct (py_join ";" v); simpl; [|done].
  first [done | apply bool_decide_eq_true_2; eauto].
Qed.

Lemma forallb_entry_ok (d : dict) :
  forallb entry_ok d = negb (existsb unjoinable_tags d).
Proof.
  induction d as [|kv d IH]; [done|]. simpl.
  by rewrite IH, entry_ok_unjoinable, negb_orb.
Qed.

(** One turn of the loop on an entry that cannot be joined. *)
Lemma add_param_unjoinable (k : string) (v : value) (a b : dict) (url : string)
    (out : list string) :
  k ∉ keys a ->
  unjoinable_tags (k, v) = true ->
  add_param k (url, a ++ (k, v) :: b) out
  = Raise UNBOUND_FUSED (out ++ [JOIN_DIAGNOSTIC]).
Proof.
  intros Hk Hbad. unfold unjoinable_tags in Hbad. simpl in Hbad.
  apply andb_true_iff in Hbad as [Hbad Hj].
  apply andb_true_iff in Hbad as [En Ht].
  apply negb_true_iff in En.
  destruct (py_join ";" v) eqn:Ej; [discriminate|].
  unfold add_param, dict_item. unfold mbind, Py_bind.
  rewrite (dict_get_middle k v a b Hk). simpl. rewrite En.
  rewrite (tag_name_not_include k Ht), Ht. simpl.
  rewrite (dict_get_middle k v a b Hk). simpl.
  unfold _join_strings_by, try_except, mbind, Py_bind, raise.
  rewrite En, Ej. reflexivity.
Qed.

Lemma for_each_unjoinable (b a : dict) (url : string) (out : list string) :
  NoDup (keys (a ++ b)) ->
  existsb unjoinable_tags b = true ->
  for_each add_param (keys b) (url, a ++ b) out
  = Raise UNBOUND_FUSED (out ++ [JOIN_DIAGNOSTIC]).
Proof.
  revert a url. induction b as [|[k v] b IH]; intros a url Hnd Hbad;
    [discriminate|].
  assert (Hk : k ∉ keys a).
  { unfold keys in Hnd. rewrite List.map_app in Hnd.
    exact (key_not_in_prefix _ _ _ Hnd). }
  change (keys ((k, v) :: b)) with (k :: keys b).
  cbn [for_each]. unfold mbind at 1. unfold Py_bind at 1.
  destruct (unjoinable_tags (k, v)) eqn:Ekv.
  - by rewrite (add_param_unjoinable k v a b url out Hk Ekv).
  - rewrite add_param_entry; [|done|by rewrite entry_ok_unjoinable, Ekv].
    replace (a ++ (k, stored k v) :: b) with ((a ++ [(k, stored k v)]) ++ b)
      by (by rewrite <- app_assoc).
    apply IH.
    + unfold keys in *. rewrite !List.map_app in *. simpl in *.
      by rewrite <- app_assoc.
    + simpl in Hbad. by rewrite Ekv in Hbad.
Qed.

(** The call on any table with distinct names. *)
Lemma add_optional_params_run (url : string) (d : dict) :
  NoDup (keys d) ->
  run (_add_optional_params url d)
  = if existsb unjoinable_tags d
    then Raise UNBOUND_FUSED [JOIN_DIAGNOSTIC]
    else Return (url +:+ texts d, stored_table d) [].
Proof.
  intros Hnd. destruct (existsb unjoinable_tags d) eqn:Hbad.
  - unfold run, _add_optional_params.
    exact (for_each_unjoinable d [] url [] Hnd Hbad).
  - apply add_optional_params_total; [done|].
    by rewrite forallb_entry_ok, Hbad.
Qed.

(** X1.  [_add_optional_params] has one way to fail.  On a table in which
    some name with [tag_names] holds a value that is not [None] and cannot
    be joined (a number, a boolean, a list with an item that is not a
    string), the call prints one line and raises [UnboundLocalError], the
    unbound [fused_str] of [_join_strings_by]; on every other table it
    returns and prints nothing. *)
Theorem add_optional_params_outcome (url : string) (d : dict) :
  NoDup (keys d) ->
  run (_add_optional_params url d)
  = if existsb unjoinable_tags d
    then Raise UNBOUND_FUSED ["Unable to join strings using ;"]
    else Return (url +:+ texts d, stored_table d) [].
Proof. apply add_optional_params_run. Qed.

Lemma add_optional_params_outcome_witness :
  run (_add_optional_params "tags/series?"
         [("&limit=", VInt 23); ("&tag_names=", VList [VStr "usa"; VInt 7]);
          ("&offset=", VInt 1)])
  = Raise UNBOUND_FUSED ["Unable to join strings using ;"].
Proof.
  refine (add_optional_params_outcome "tags/series?"
            [("&limit=", VInt 23); ("&tag_names=", VList [VStr "usa"; VInt 7]);
             ("&offset=", VInt 1)] _).
  compute_done.
Defined.

(** ** What parameter assembly leaves alone *)

Lemma texts_all_none (d : dict) :
  Forall (fun kv => kv.2 = VNone) d -> texts d = EmptyString.
Proof.
  induction 1 as [|[k v] d Hv _ IH]; [done|].
  simpl in Hv. subst v. by rewrite texts_cons, IH.
Qed.

Lemma stored_table_all_none (d : dict) :
  Forall (fun kv => kv.2 = VNone) d -> stored_table d = d.
Proof.
  induction 1 as [|[k v] d Hv _ IH]; [done|].
  simpl in Hv. subst v. simpl. by rewrite IH.
Qed.

Lemma unjoinable_all_none (d : dict) :
  Forall (fun kv => kv.2 = VNone) d -> existsb unjoinable_tags d = false.
Proof.
  induction 1 as [|[k v] d Hv _ IH]; [done|].
  simpl in Hv. subst v. simpl. by rewrite IH.
Qed.

(** X2.  On a table whose values are all [None] (the empty table too)
    [_add_optional_params] returns the URL it was given, leaves the table
    as it was and prints nothing, whatever the names are. *)
Theorem add_optional_params_all_none (url : string) (d : dict) :
  NoDup (keys d) ->
  Forall (fun kv => kv.2 = VNone) d ->
  run (_add_optional_params url d) = Return (url, d) [].
Proof.
  intros Hnd Hnone. rewrite (add_optional_params_run url d Hnd).
  rewrite (unjoinable_all_none d Hnone), (texts_all_none d Hnone).
  by rewrite (stored_table_all_none d Hnone), app_empty_r.
Qed.

Lemma add_optional_params_all_none_witness :
  run (_add_optional_params "series/search?"
         [("&tag_names=", VNone); (INCLUDE_EMPTY, VNone); ("&limit=", VNone)])
  = Return ("series/search?",
            [("&tag_names=", VNone); (INCLUDE_EMPTY, VNone); ("&limit=", VNone)])
      [].
Proof.
  apply (add_optional_params_all_none "series/search?"
           [("&tag_names=", VNone); (INCLUDE_EMPTY, VNone); ("&limit=", VNone)]).
  - compute_done.
  - repeat constructor.
Defined.

Lemma dict_get_stored_table (k : string) (d : dict) :
  dict_get k (stored_table d) = stored k <$> dict_get k d.
Proof.
  induction d as [|[k' v'] d IH]; [done|]. simpl.
  destruct (String.eqb_spec k k') as [->|Hne]; [done|exact IH].
Qed.

Lemma stored_plain (k : string) (v : value) :
  plain_name k = true -> stored k v = v.
Proof.
  unfold plain_name, stored, lowered. intros Hp.
  apply andb_true_iff in Hp as [Hi Ht].
  apply negb_true_iff in Hi, Ht. rewrite Hi, Ht. by destruct (is_none v).
Qed.

(** X3.  When [_add_optional_params] returns, the table has the same
    names in the same order, every entry under a name that is neither
    [&include_release_dates_with_no_data=] nor one with [tag_names] holds
    the value it held, every [None] is still [None], the returned URL
    starts with the URL given, and nothing was printed. *)
Theorem add_optional_params_frame (url url' : string) (d d' : dict)
    (out : list string) :
  NoDup (keys d) ->
  run (_add_optional_params url d) = Return (url', d') out ->
  keys d' = keys d
  /\ (forall k, plain_name k = true -> dict_get k d' = dict_get k d)
  /\ (forall k, dict_get k d = Some VNone -> dict_get k d' = Some VNone)
  /\ (exists added, url' = url +:+ added)
  /\ out = [].
Proof.
  intros Hnd Hrun. rewrite (add_optional_params_run url d Hnd) in Hrun.
  destruct (existsb unjoinable_tags d); [discriminate|].
  injection Hrun as <- <- <-.
  split; [apply keys_stored_table|]. split; [|split; [|split]].
  - intros k Hp. rewrite dict_get_stored_table.
    destruct (dict_get k d) as [v|]; [|done]. simpl.
    by rewrite (stored_plain k v Hp).
  - intros k Hk. by rewrite dict_get_stored_table, Hk.
  - by exists (texts d).
  - done.
Qed.

Lemma add_optional_params_frame_witness :
  keys [("&limit=", VInt 23); (INCLUDE_EMPTY, VStr "true"); ("&offset=", VNone)]
  = keys [("&limit=", VInt 23); (INCLUDE_EMPTY, VBool true); ("&offset=", VNone)]
  /\ dict_get "&limit="
       [("&limit=", VInt 23); (INCLUDE_EMPTY, VStr "true"); ("&offset=", VNone)]
     = Some (VInt 23).
Proof.
  pose proof (add_optional_params_frame "releases/dates?"
                "releases/dates?&limit=23&include_release_dates_with_no_data=true"
                [("&limit=", VInt 23); (INCLUDE_EMPTY, VBool true);
                 ("&offset=", VNone)]
                [("&limit=", VInt 23); (INCLUDE_EMPTY, VStr "true");
                 ("&offset=", VNone)] []) as H.
  destruct H as (Hkeys & Hplain & _).
  - compute_done.
  - reflexivity.
  - split; [exact Hkeys|]. exact (Hplain "&limit=" eq_refl).
Defined.

(** X4.  Parameters are added in the order of the table: the call on a
    table made of two parts is the call on the first part followed by the
    call on the second part with the URL the first returned, and the table
    it leaves is the two tables they leave, one after the other. *)
Theorem add_optional_params_app (url : string) (a b : dict) :
  NoDup (keys (a ++ b)) ->
  run (_add_optional_params url (a ++ b))
  = match run (_add_optional_params url a) with
    | Return (url_a, a') _ =>
        match run (_add_optional_params url_a b) with
        | Return (url_b, b') out => Return (url_b, a' ++ b') out
        | Raise e out => Raise e out
        end
    | Raise e out => Raise e out
    end.
Proof.
  intros Hnd.
  assert (Ha : NoDup (keys a) /\ NoDup (keys b)).
  { unfold keys in *. rewrite List.map_app in Hnd.
    apply NoDup_app in Hnd as (Ha & _ & Hb). by split. }
  destruct Ha as [Ha Hb].
  rewrite (add_optional_params_run url (a ++ b) Hnd).
  rewrite (add_optional_params_run url a Ha), existsb_app.
  destruct (existsb unjoinable_tags a); [done|]. simpl.
  rewrite (add_optional_params_run _ b Hb).
  destruct (existsb unjoinable_tags b); [done|].
  by rewrite texts_app, stored_table_app, app_assoc_str.
Qed.

Lemma add_optional_params_app_witness :
  run (_add_optional_params "tags/series?"
         ([("&tag_names=", VList [VStr "usa"; VStr "gdp"])]
            ++ [("&limit=", VInt 23)]))
  = Return ("tags/series?&tag_names=usa;gdp&limit=23",
            [("&tag_names=", VStr "usa;gdp")] ++ [("&limit=", VInt 23)]) [].
Proof.
  refine (eq_trans
            (add_optional_params_app "tags/series?"
               [("&tag_names=", VList [VStr "usa"; VStr "gdp"])]
               [("&limit=", VInt 23)] _) _).
  - compute_done.
  - reflexivity.
Defined.

(** ** Calling parameter assembly again on the table it left *)

Lemma lower_char_idem (c : ascii) :
  PyStr.lower_char (PyStr.lower_char c) = PyStr.lower_char c.
Proof. destruct c as [[] [] [] [] [] [] [] []]; vm_compute; reflexivity. Qed.

Lemma lower_idem (s : string) : PyStr.lower (PyStr.lower s) = PyStr.lower s.
Proof.
  unfold PyStr.lower. induction s as [|c s IH]; [done|].
  simpl. by rewrite lower_char_idem, IH.
Qed.

Lemma stored_no_tags (k : string) (v : value) :
  PyStr.contains "tag_names" k = false ->
  stored k v = if is_none v then v else lowered k v.
Proof. intros Ht. unfold stored. by rewrite Ht. Qed.

Lemma stored_idem (k : string) (v : value) :
  PyStr.contains "tag_names" k = false ->
  stored k (stored k v) = stored k v /\ text k (stored k v) = text k v.
Proof.
  intros Ht. unfold text. rewrite !(stored_no_tags k _ Ht).
  destruct (is_none v) eqn:En; [by rewrite En|].
  unfold lowered. destruct (String.eqb k INCLUDE_EMPTY); [|by rewrite En].
  simpl. by rewrite lower_idem.
Qed.

Lemma no_tags_table (d : dict) :
  Forall (fun kv => PyStr.contains "tag_names" kv.1 = false) d ->
  existsb unjoinable_tags d = false
  /\ stored_table (stored_table d) = stored_table d
  /\ texts (stored_table d) = texts d.
Proof.
  induction 1 as [|[k v] d Ht _ (IH1 & IH2 & IH3)]; [done|].
  simpl in Ht. destruct (stored_idem k v Ht) as [Hs Htx].
  repeat split.
  - simpl. unfold unjoinable_tags at 1. simpl. rewrite Ht, andb_false_r.
    exact IH1.
  - simpl. by rewrite Hs, IH2.
  - change (stored_table ((k, v) :: d))
      with ((k, stored k v) :: stored_table d).
    by rewrite !texts_cons, Htx, IH3.
Qed.

(** X5.  On a table with no [tag_names] name the call can be repeated:
    it returns, and called again with the same URL on the table it left
    it returns the same URL and leaves the table as it found it. *)
Theorem add_optional_params_repeat (url : string) (d : dict) :
  NoDup (keys d) ->
  Forall (fun kv => PyStr.contains "tag_names" kv.1 = false) d ->
  exists url' d',
    run (_add_optional_params url d) = Return (url', d') []
    /\ run (_add_optional_params url d') = Return (url', d') [].
Proof.
  intros Hnd Hnt. destruct (no_tags_table d Hnt) as (Hbad & Hst & Htx).
  exists (url +:+ texts d), (stored_table d). split.
  - by rewrite (add_optional_params_run url d Hnd), Hbad.
  - rewrite add_optional_params_run by (by rewrite keys_stored_table).
    destruct (no_tags_table (stored_table d)) as (-> & _ & _).
    + apply Forall_forall. intros [k v] Hin.
      apply list_elem_of_In, in_map_iff in Hin as ([k0 v0] & Heq & Hin).
      injection Heq as <- _. simpl.
      rewrite Forall_forall in Hnt.
      exact (Hnt (k0, v0) (proj2 (list_elem_of_In _ _) Hin)).
    + by rewrite Hst, Htx.
Qed.

Lemma add_optional_params_repeat_witness :
  exists url' d',
    run (_add_optional_params "releases/dates?"
           [("&limit=", VInt 23); (INCLUDE_EMPTY, VBool true)])
    = Return (url', d') []
    /\ run (_add_optional_params "releases/dates?" d') = Return (url', d') [].
Proof.
  apply (add_optional_params_repeat "releases/dates?"
           [("&limit=", VInt 23); (INCLUDE_EMPTY, VBool true)]).
  - compute_done.
  - repeat constructor.
Defined.

Lemma length_app_str (s t : string) :
  String.length (s +:+ t) = (String.length s + String.length t)%nat.
Proof.
  induction s as [|c s IH]; [done|]. rewrite app_cons. simpl. by rewrite IH.
Qed.

Lemma join_chars_length (sep : string) (s : string) :
  String.length (PyStr.join sep (PyStr.chars s))
  = (String.length s + pred (String.length s) * String.length sep)%nat.
Proof.
  induction s as [|c s IH]; [done|].
  destruct s as [|c' s]; [done|].
  change (PyStr.chars (String c (String c' s)))
    with (String c EmptyString :: PyStr.chars (String c' s)).
  change (PyStr.join sep (String c EmptyString :: PyStr.chars (String c' s)))
    with (String c EmptyString +:+ sep
          +:+ PyStr.join sep (PyStr.chars (String c' s))).
  rewrite !length_app_str, IH. simpl. lia.
Qed.

(** X6.  A string under a [tag_names] name is joined character by
    character: [_add_optional_params] puts [;] between every two
    characters of it before trimming and replacing spaces, and stores the
    result.  The joined text of a string of [n] characters has [2n - 1]
    characters, so only strings shorter than two characters pass
    unchanged. *)
Theorem tag_names_string_split (url : string) (pre post : dict) (k s : string) :
  NoDup (keys pre ++ k :: keys post) ->
  existsb unjoinable_tags (pre ++ post) = false ->
  PyStr.contains "tag_names" k = true ->
  let joined := PyStr.join ";" (PyStr.chars s) in
  run (_add_optional_params url (pre ++ (k, VStr s) :: post))
  = Return (url +:+ texts pre +:+ (k +:+ encode_tags joined) +:+ texts post,
            stored_table pre ++ (k, VStr (encode_tags joined))
              :: stored_table post) []
  /\ String.length joined = (2 * String.length s - 1)%nat.
Proof.
  intros Hnd Hok Ht joined. split.
  - rewrite add_optional_params_run
      by (unfold keys; by rewrite List.map_app).
    rewrite existsb_app in *. apply orb_false_iff in Hok as [Hpre Hpost].
    simpl. rewrite Hpre, Hpost.
    unfold unjoinable_tags at 1. simpl. rewrite andb_false_r. simpl.
    rewrite texts_app, texts_cons, stored_table_app. simpl.
    unfold text, stored, lowered. simpl.
    by rewrite Ht, (tag_name_not_include k Ht).
  - unfold joined. rewrite join_chars_length. simpl. lia.
Qed.

Lemma tag_names_string_split_witness :
  run (_add_optional_params "tags/series?"
         ([] ++ ("&tag_names=", VStr "usa") :: [("&limit=", VInt 23)]))
  = Return ("tags/series?&tag_names=u;s;a&limit=23",
            [("&tag_names=", VStr "u;s;a"); ("&limit=", VInt 23)]) [].
Proof.
  refine (proj1 (tag_names_string_split "tags/series?" []
                   [("&limit=", VInt 23)] "&tag_names=" "usa" _ eq_refl eq_refl)).
  compute_done.
Defined.

Lemma no_tags_stored_table (d : dict) :
  Forall (fun kv => PyStr.contains "tag_names" kv.1 = false) d ->
  Forall (fun kv => PyStr.contains "tag_names" kv.1 = false) (stored_table d).
Proof.
  induction 1 as [|[k v] d Ht _ IH]; [constructor|].
  simpl. by constructor.
Qed.

Lemma unjoinable_joined (k : string) (v : value) (joined : string) :
  py_join ";" v = Some joined -> unjoinable_tags (k, v) = false.
Proof.
  intros Hj. unfold unjoinable_tags. cbn [fst snd]. rewrite Hj.
  apply andb_false_r.
Qed.

Lemma stored_tag_joined (k : string) (v : value) (joined : string) :
  PyStr.contains "tag_names" k = true ->
  py_join ";" v = Some joined ->
  stored k v = VStr (encode_tags joined)
  /\ text k v = k +:+ encode_tags joined.
Proof.
  intros Ht Hj.
  assert (Hs : stored k v = VStr (encode_tags joined)).
  { unfold stored, lowered. rewrite Ht, (tag_name_not_include k Ht), Hj.
    by destruct v. }
  split; [exact Hs|]. unfold text. rewrite Hs. by destruct v.
Qed.

Lemma py_join_str (sep s : string) :
  py_join sep (VStr s) = Some (PyStr.join sep (PyStr.chars s)).
Proof. reflexivity. Qed.

Lemma existsb_middle {A : Type} (f : A -> bool) (a b : list A) (x : A) :
  existsb f (a ++ x :: b) = existsb f a || (f x || existsb f b).
Proof. by rewrite existsb_app. Qed.

Lemma texts_middle (a b : dict) (k : string) (v : value) :
  texts (a ++ (k, v) :: b) = texts a +:+ text k v +:+ texts b.
Proof. by rewrite texts_app, texts_cons. Qed.

Lemma stored_table_middle (a b : dict) (k : string) (v : value) :
  stored_table (a ++ (k, v) :: b)
  = stored_table a ++ (k, stored k v) :: stored_table b.
Proof. by rewrite stored_table_app. Qed.

Lemma keys_middle (a b : dict) (k : string) (v : value) :
  keys (a ++ (k, v) :: b) = keys a ++ k :: keys b.
Proof. unfold keys. by rewrite List.map_app. Qed.

(** X7.  A list under a [tag_names] name does not survive a second call.
    The first call leaves the joined string in the table; called again on
    that table, [_add_optional_params] joins the characters of that string,
    so the URL then has [;] between every two characters of the first
    rendering. *)
Theorem tag_names_second_call (url : string) (pre post : dict) (k : string)
    (names : list string) :
  NoDup (keys pre ++ k :: keys post) ->
  Forall (fun kv => PyStr.contains "tag_names" kv.1 = false) (pre ++ post) ->
  PyStr.contains "tag_names" k = true ->
  let rendered := encode_tags (PyStr.join ";" names) in
  let again := encode_tags (PyStr.join ";" (PyStr.chars rendered)) in
  exists d1,
    run (_add_optional_params url (pre ++ (k, VList (VStr <$> names)) :: post))
    = Return (url +:+ texts pre +:+ (k +:+ rendered) +:+ texts post, d1) []
    /\ dict_get k d1 = Some (VStr rendered)
    /\ run (_add_optional_params url d1)
       = Return (url +:+ texts pre +:+ (k +:+ again) +:+ texts post,
                 stored_table pre ++ (k, VStr again) :: stored_table post) [].
Proof.
  intros Hnd Hnt Ht rendered again.
  apply Forall_app in Hnt as [Hpre Hpost].
  destruct (no_tags_table pre Hpre) as (Bpre & Spre & Tpre).
  destruct (no_tags_table post Hpost) as (Bpost & Spost & Tpost).
  destruct (no_tags_table _ (no_tags_stored_table pre Hpre)) as (Bpre' & _ & _).
  destruct (no_tags_table _ (no_tags_stored_table post Hpost))
    as (Bpost' & _ & _).
  assert (Hk : k ∉ keys pre) by exact (key_not_in_prefix _ _ _ Hnd).
  assert (Hni := tag_name_not_include k Ht).
  destruct (stored_tag_joined k _ _ Ht (py_join_strings ";" names))
    as [Hs1 Ht1].
  destruct (stored_tag_joined k _ _ Ht (py_join_str ";" rendered))
    as [Hs2 Ht2].
  exists (stored_table pre ++ (k, VStr rendered) :: stored_table post).
  split; [|split].
  - rewrite add_optional_params_run by (by rewrite keys_middle).
    rewrite existsb_middle, Bpre, Bpost.
    rewrite (unjoinable_joined k _ _ (py_join_strings ";" names)).
    cbn [orb]. by rewrite texts_middle, stored_table_middle, Hs1, Ht1.
  - apply dict_get_middle. by rewrite keys_stored_table.
  - rewrite add_optional_params_run
      by (by rewrite keys_middle, !keys_stored_table).
    rewrite existsb_middle, Bpre', Bpost'.
    rewrite (unjoinable_joined k _ _ (py_join_str ";" rendered)).
    cbn [orb].
    by rewrite texts_middle, stored_table_middle, Hs2, Ht2, Spre, Spost,
      Tpre, Tpost.
Qed.

Lemma tag_names_second_call_witness :
  exists d1,
    run (_add_optional_params "tags/series?"
           ([("&limit=", VInt 23)]
              ++ ("&tag_names=", VList (VStr <$> ["usa"; "gdp"])) :: []))
    = Return ("tags/series?&limit=23&tag_names=usa;gdp", d1) []
    /\ dict_get "&tag_names=" d1 = Some (VStr "usa;gdp")
    /\ run (_add_optional_params "tags/series?" d1)
       = Return ("tags/series?&limit=23&tag_names=u;s;a;;;g;d;p",
                 [("&limit=", VInt 23); ("&tag_names=", VStr "u;s;a;;;g;d;p")])
           [].
Proof.
  refine (tag_names_second_call "tags/series?" [("&limit=", VInt 23)] []
            "&tag_names=" ["usa"; "gdp"] _ _ eq_refl).
  - compute_done.
  - repeat constructor.
Defined.

(** ** Building the request URL *)

Lemma read_api_key_file_directory (w : World) (self : FredBase) (path : string)
    (out : list string) :
  api_key_file self = Some path ->
  files w !! path = Some Directory ->
  _read_api_key_file w self out
  = Raise (mk_exn IsADirectoryError
             ("[Errno 21] Is a directory: " +:+ PyStr.repr path)) out.
Proof.
  intros Hp Hf. unfold _read_api_key_file, try_except, open_r, mbind, Py_bind.
  rewrite Hp, Hf. reflexivity.
Qed.

Lemma viable_file (w : World) (self : FredBase) (path : string) :
  api_key self = None -> api_key_file self = Some path ->
  _viable_api_key w self [] = Return "file" [].
Proof.
  intros Hk Hp. pose proof (viable_api_key_select w self) as H.
  unfold run in H. by rewrite H, Hk, Hp.
Qed.

(** The URL building of an object whose source is a key file, by what is
    at the path. *)
Lemma make_request_url_file (w : World) (self : FredBase) (path var_url : string) :
  api_key self = None ->
  api_key_file self = Some path ->
  run (_make_request_url w self var_url)
  = match files w !! path with
    | Some (RegularFile content) =>
        Return
          (Some (url_base self +:+ var_url +:+ "&file_type=json&api_key="
                 +:+ PyStr.strip (first_line content))) []
    | Some Directory =>
        Raise (mk_exn IsADirectoryError
                 ("[Errno 21] Is a directory: " +:+ PyStr.repr path)) []
    | None =>
        Raise (mk_exn TypeError "can only concatenate str (not NoneType) to str")
          ["[Errno 2] No such file or directory: " +:+ PyStr.repr path]
    end.
Proof.
  intros Hk Hp. unfold run, _make_request_url, mbind, Py_bind.
  rewrite (viable_file w self path Hk Hp). simpl.
  destruct (files w !! path) as [[content|]|] eqn:Hf.
  - rewrite (read_api_key_file_present w self path content [] Hp Hf).
    simpl. by rewrite !app_assoc_str.
  - by rewrite (read_api_key_file_directory w self path [] Hp Hf).
  - by rewrite (read_api_key_file_missing w self path [] Hp Hf).
Qed.

(** X8.  A key file that is gone when the URL is built is tolerated by
    the read only: [_make_request_url] prints the read's message and then
    raises [TypeError] from adding [None] to the URL, and [_fetch_data]
    raises with it.  A directory at the path is not tolerated at all: the
    [IsADirectoryError] of the read reaches the caller. *)
Theorem key_file_unreadable (w : World) (self : FredBase)
    (path var_url : string) :
  api_key self = None ->
  api_key_file self = Some path ->
  (files w !! path = None ->
   run (_make_request_url w self var_url)
   = Raise (mk_exn TypeError "can only concatenate str (not NoneType) to str")
       ["[Errno 2] No such file or directory: " +:+ PyStr.repr path]
   /\ run (_fetch_data w self var_url)
      = Raise (mk_exn TypeError "can only concatenate str (not NoneType) to str")
          ["[Errno 2] No such file or directory: " +:+ PyStr.repr path])
  /\ (files w !! path = Some Directory ->
      run (_make_request_url w self var_url)
      = Raise (mk_exn IsADirectoryError
                 ("[Errno 21] Is a directory: " +:+ PyStr.repr path)) []
      /\ run (_fetch_data w self var_url)
         = Raise (mk_exn IsADirectoryError
                    ("[Errno 21] Is a directory: " +:+ PyStr.repr path)) []).
Proof.
  intros Hk Hp.
  pose proof (make_request_url_file w self path var_url Hk Hp) as Hu.
  split; intros Hf; rewrite Hf in Hu; (split; [exact Hu|]);
    unfold run in *; unfold _fetch_data, mbind, Py_bind; by rewrite Hu.
Qed.

Lemma key_file_unreadable_witness :
  run (_fetch_data w_env (fred None (Some KEY_PATH)) "series?series_id=GDP")
  = Raise (mk_exn TypeError "can only concatenate str (not NoneType) to str")
      ["[Errno 2] No such file or directory: '/home/user/fred_key.txt'"]
  /\ run (_fetch_data w_dir (fred None (Some KEY_PATH)) "series?series_id=GDP")
     = Raise (mk_exn IsADirectoryError
                "[Errno 21] Is a directory: '/home/user/fred_key.txt'") [].
Proof.
  split.
  - exact (proj2 (proj1 (key_file_unreadable w_env (fred None (Some KEY_PATH))
                           KEY_PATH "series?series_id=GDP" eq_refl eq_refl)
                    eq_refl)).
  - exact (proj2 (proj2 (key_file_unreadable w_dir (fred None (Some KEY_PATH))
                           KEY_PATH "series?series_id=GDP" eq_refl eq_refl)
                    eq_refl)).
Defined.

(** X9.  [_make_request_url] never hands back [None] and never prints
    when it returns: whenever it returns, nothing was printed and the
    result is a URL made of the base, the path fragment and the credential
    of the selected source. *)
Theorem request_url_returns_url (w : World) (self : FredBase)
    (var_url : string) (r : option string) (out : list string) :
  run (_make_request_url w self var_url) = Return r out ->
  out = []
  /\ exists s key,
       select_source (api_key self) (api_key_file self)
         (environ w !! FRED_API_KEY) = Some s
       /\ credential_of w self s = Some key
       /\ r = Some (url_base self +:+ var_url +:+ "&file_type=json&api_key="
                    +:+ key).
Proof.
  intros Hrun.
  destruct (select_source (api_key self) (api_key_file self)
              (environ w !! FRED_API_KEY)) as [s|] eqn:Hsel.
  - destruct (credential_of w self s) as [key|] eqn:Hcred.
    + rewrite (make_request_url_selected w self s key var_url Hsel Hcred)
        in Hrun.
      injection Hrun as <- <-. split; [done|]. by exists s, key.
    + exfalso. unfold select_source in Hsel.
      destruct (api_key self) as [k|] eqn:Hk.
      { injection Hsel as <-. simpl in Hcred. congruence. }
      destruct (api_key_file self) as [f|] eqn:Hf.
      { injection Hsel as <-. simpl in Hcred. rewrite Hf in Hcred.
        simpl in Hcred.
        rewrite (make_request_url_file w self f var_url Hk Hf) in Hrun.
        by destruct (files w !! f) as [[content|]|]. }
      destruct (environ w !! FRED_API_KEY) as [v|] eqn:He; [|done].
      injection Hsel as <-. simpl in Hcred. congruence.
  - pose proof (viable_api_key_select w self) as Hv. rewrite Hsel in Hv.
    unfold run in *. unfold _make_request_url, mbind, Py_bind in Hrun.
    by rewrite Hv in Hrun.
Qed.

Lemma request_url_returns_url_witness :
  @nil string = []
  /\ exists s key,
       select_source (api_key (fred None (Some KEY_PATH)))
         (api_key_file (fred None (Some KEY_PATH)))
         (environ w_file !! FRED_API_KEY) = Some s
       /\ credential_of w_file (fred None (Some KEY_PATH)) s = Some key
       /\ Some "https://api.stlouisfed.org/fred/series?series_id=GDP&file_type=json&api_key=f1le-key"
          = Some (url_base (fred None (Some KEY_PATH)) +:+ "series?series_id=GDP"
                  +:+ "&file_type=json&api_key=" +:+ key).
Proof.
  exact (request_url_returns_url w_file (fred None (Some KEY_PATH))
           "series?series_id=GDP" _ [] eq_refl).
Defined.

(** ** Fetching from a server that answers *)




(** ** Setting the key file and constructing *)

Lemma isfile_regular (w : World) (path : string) :
  isfile w path = true ->
  exists content, files w !! path = Some (RegularFile content).
Proof.
  unfold isfile. destruct (files w !! path) as [[content|]|]; try done.
  by exists content.
Qed.

(** X11.  Setting a key file that is a regular file returns [True],
    stores the path and nothing else: [get_api_key_file] gives the path
    back, the explicit key and the base URL are as before, and reading the
    key file in the same world gives the trimmed first line of that
    file. *)
Theorem set_api_key_file_round_trip (w : World) (self : FredBase)
    (path : string) :
  isfile w path = true ->
  exists self' content,
    run (set_api_key_file w self (Some path)) = Return (self', true) []
    /\ get_api_key_file self' = Some path
    /\ api_key self' = api_key self
    /\ url_base self' = url_base self
    /\ files w !! path = Some (RegularFile content)
    /\ run (_read_api_key_file w self')
       = Return (Some (PyStr.strip (first_line content))) [].
Proof.
  intros Hf. destruct (isfile_regular w path Hf) as [content Hc].
  eexists _, content. unfold run, set_api_key_file. rewrite Hf. simpl.
  repeat split; try done.
  by apply (read_api_key_file_present w _ path content []).
Qed.

Lemma set_api_key_file_round_trip_witness :
  exists self' content,
    run (set_api_key_file w_file (fred None None) (Some KEY_PATH))
    = Return (self', true) []
    /\ get_api_key_file self' = Some KEY_PATH
    /\ api_key self' = api_key (fred None None)
    /\ url_base self' = url_base (fred None None)
    /\ files w_file !! KEY_PATH = Some (RegularFile content)
    /\ run (_read_api_key_file w_file self')
       = Return (Some (PyStr.strip (first_line content))) [].
Proof.
  exact (set_api_key_file_round_trip w_file (fred None None) KEY_PATH eq_refl).
Defined.

(** X12.  On an object that has an explicit key, setting a key file
    changes no request: before and after the call every URL is built with
    the explicit key, whatever the file holds. *)
Theorem set_api_key_file_keeps_explicit_key (w : World) (self self' : FredBase)
    (k : string) (file : option string) (flag : bool) (out : list string) :
  api_key self = Some k ->
  run (set_api_key_file w self file) = Return (self', flag) out ->
  forall var_url,
    run (_make_request_url w self' var_url)
    = Return
        (Some (url_base self +:+ var_url +:+ "&file_type=json&api_key=" +:+ k))
        []
    /\ run (_make_request_url w self' var_url)
       = run (_make_request_url w self var_url).
Proof.
  intros Hk Hset var_url.
  assert (Hself : run (_make_request_url w self var_url)
                  = Return
                      (Some (url_base self +:+ var_url
                             +:+ "&file_type=json&api_key=" +:+ k)) []).
  { apply (make_request_url_selected w self Explicit); [by rewrite Hk|done]. }
  unfold run, set_api_key_file in Hset.
  destruct file as [f|]; [|discriminate].
  destruct (negb (isfile w f)); [discriminate|].
  injection Hset as <- _ _. rewrite Hself.
  assert (Hself' : run (_make_request_url w
                          (mk_FredBase (realtime_start self) (realtime_end self)
                             (url_base self) (api_key self) (Some f)
                             (api_key_env_var self)) var_url)
                   = Return
                       (Some (url_base self +:+ var_url
                              +:+ "&file_type=json&api_key=" +:+ k)) []).
  { refine (make_request_url_selected w
              (mk_FredBase (realtime_start self) (realtime_end self)
                 (url_base self) (api_key self) (Some f)
                 (api_key_env_var self)) Explicit k var_url _ _);
      simpl; by rewrite ?Hk. }
  by split.
Qed.

Lemma set_api_key_file_keeps_explicit_key_witness :
  run (_make_request_url w_file
         (mk_FredBase "1776-07-04" "9999-12-31" URL_BASE (Some "k3y")
            (Some KEY_PATH) false) "series?series_id=GDP")
  = Return
      (Some (url_base (fred (Some "k3y") None) +:+ "series?series_id=GDP"
             +:+ "&file_type=json&api_key=" +:+ "k3y")) []
  /\ run (_make_request_url w_file
            (mk_FredBase "1776-07-04" "9999-12-31" URL_BASE (Some "k3y")
               (Some KEY_PATH) false) "series?series_id=GDP")
     = run (_make_request_url w_file (fred (Some "k3y") None)
              "series?series_id=GDP").
Proof.
  exact (set_api_key_file_keeps_explicit_key w_file (fred (Some "k3y") None) _
           "k3y" (Some KEY_PATH) true [] eq_refl eq_refl
           "series?series_id=GDP").
Defined.

(** X14.  An object constructed from a key file alone builds its URLs
    from that file: when the constructor returns, the path holds a regular
    file, the environment variable is not consulted, and in the same world
    every request URL carries the trimmed first line of the file, even
    when [FRED_API_KEY] is set. *)
Theorem init_key_file_builds_url (w : World) (path : string) (self : FredBase)
    (out : list string) :
  run (init w None (Some path)) = Return self out ->
  out = []
  /\ api_key_env_var self = false
  /\ exists content,
       files w !! path = Some (RegularFile content)
       /\ forall var_url,
            run (_make_request_url w self var_url)
            = Return
                (Some ("https://api.stlouisfed.org/fred/" +:+ var_url
                       +:+ "&file_type=json&api_key="
                       +:+ PyStr.strip (first_line content))) [].
Proof.
  intros Hrun. unfold run, init, set_api_key_file, mbind, Py_bind in Hrun.
  destruct (isfile w path) eqn:Hf; simpl in Hrun; [|discriminate].
  injection Hrun as <- <-. split; [done|]. split; [done|].
  destruct (isfile_regular w path Hf) as [content Hc].
  exists content. split; [done|]. intros var_url.
  match goal with
  | |- run (_make_request_url w ?obj _) = _ =>
      rewrite (make_request_url_file w obj path var_url eq_refl eq_refl)
  end.
  by rewrite Hc.
Qed.

Lemma init_key_file_builds_url_witness :
  exists content,
    files w_file !! KEY_PATH = Some (RegularFile content)
    /\ forall var_url,
         run (_make_request_url w_file
                (mk_FredBase "1776-07-04" "9999-12-31" URL_BASE None
                   (Some KEY_PATH) false) var_url)
         = Return
             (Some ("https://api.stlouisfed.org/fred/" +:+ var_url
                    +:+ "&file_type=json&api_key="
                    +:+ PyStr.strip (first_line content))) [].
Proof.
  exact (proj2 (proj2 (init_key_file_builds_url w_file KEY_PATH _ [] eq_refl))).
Defined.

(** ** The key read from a file *)

Lemma has_char_lstrip (c : ascii) (s : string) :
  PyStr.has_char c (PyStr.lstrip s) = true -> PyStr.has_char c s = true.
Proof.
  induction s as [|a s IH]; [done|]. simpl.
  destruct (PyStr.isspace a); [|done].
  intros H. rewrite (IH H). apply orb_true_r.
Qed.

Lemma has_char_rstrip (c : ascii) (s : string) :
  PyStr.has_char c (PyStr.rstrip s) = true -> PyStr.has_char c s = true.
Proof.
  induction s as [|a s IH]; [done|]. simpl.
  destruct (PyStr.rstrip s) as [|b r] eqn:Er.
  - destruct (PyStr.isspace a); [done|]. simpl.
    rewrite orb_false_r. intros ->. done.
  - simpl. intros H. apply orb_true_iff in H as [->|H]; [done|].
    simpl in IH. rewrite (IH H). apply orb_true_r.
Qed.

Lemma has_char_strip (c : ascii) (s : string) :
  PyStr.has_char c s = false -> PyStr.has_char c (PyStr.strip s) = false.
Proof.
  intros Hs. destruct (PyStr.has_char c (PyStr.strip s)) eqn:E; [|done].
  unfold PyStr.strip in E.
  by rewrite (has_char_lstrip c s (has_char_rstrip c _ E)) in Hs.
Qed.

Lemma first_line_no_break (s : string) :
  PyStr.has_char PyStr.LF (first_line s) = false
  /\ PyStr.has_char PyStr.CR (first_line s) = false.
Proof.
  induction s as [|c s [IH1 IH2]]; [done|]. cbn [first_line].
  destruct (Ascii.eqb_spec c PyStr.LF) as [->|Hlf]; [done|].
  destruct (Ascii.eqb_spec c PyStr.CR) as [->|Hcr]; [done|].
  cbn [orb PyStr.has_char]. rewrite IH1, IH2, !orb_false_r.
  split; apply Ascii.eqb_neq; congruence.
Qed.

Lemma lstrip_head (s : string) :
  match PyStr.lstrip s with
  | String c _ => PyStr.isspace c = false
  | EmptyString => True
  end.
Proof.
  induction s as [|a s IH]; [done|]. simpl.
  destruct (PyStr.isspace a) eqn:Ea; [exact IH|exact Ea].
Qed.

Lemma rstrip_idem (s : string) : PyStr.rstrip (PyStr.rstrip s) = PyStr.rstrip s.
Proof.
  induction s as [|a s IH]; [done|]. simpl.
  destruct (PyStr.rstrip s) as [|b r] eqn:Er.
  - destruct (PyStr.isspace a) eqn:Ea; [done|]. simpl. by rewrite Ea.
  - change (PyStr.rstrip (String a (String b r)))
      with (match PyStr.rstrip (String b r) with
            | EmptyString =>
                if PyStr.isspace a then EmptyString else String a EmptyString
            | x => String a x
            end).
    by rewrite IH.
Qed.

Lemma strip_idem (s : string) : PyStr.strip (PyStr.strip s) = PyStr.strip s.
Proof.
  unfold PyStr.strip. pose proof (lstrip_head s) as Hh.
  destruct (PyStr.lstrip s) as [|c t] eqn:El; [done|].
  assert (Hr : exists r, PyStr.rstrip (String c t) = String c r).
  { simpl. destruct (PyStr.rstrip t); [rewrite Hh|]; eauto. }
  destruct Hr as [r Hr]. rewrite Hr.
  assert (Hl : PyStr.lstrip (String c r) = String c r) by (simpl; by rewrite Hh).
  rewrite Hl, <- Hr. apply rstrip_idem.
Qed.

Lemma read_api_key_file_inv (w : World) (self : FredBase) (key : string)
    (out : list string) :
  run (_read_api_key_file w self) = Return (Some key) out ->
  exists path content,
    api_key_file self = Some path
    /\ files w !! path = Some (RegularFile content)
    /\ key = PyStr.strip (first_line content).
Proof.
  unfold run, _read_api_key_file, try_except, open_r, mbind, Py_bind.
  destruct (api_key_file self) as [path|]; [|discriminate].
  destruct (files w !! path) as [[content|]|] eqn:Hf; simpl; try discriminate.
  intros H. injection H as <- _. exists path, content.
  by rewrite strip_readline.
Qed.

(** X15.  A key read from the key file is one clean token: it has no
    line feed and no carriage return in it, and no white space at either
    end (trimming it again changes nothing). *)
Theorem key_from_file_is_clean (w : World) (self : FredBase) (key : string)
    (out : list string) :
  run (_read_api_key_file w self) = Return (Some key) out ->
  PyStr.has_char PyStr.LF key = false
  /\ PyStr.has_char PyStr.CR key = false
  /\ PyStr.strip key = key.
Proof.
  intros Hrun.
  destruct (read_api_key_file_inv w self key out Hrun)
    as (path & content & _ & _ & ->).
  destruct (first_line_no_break content) as [Hlf Hcr].
  split; [by apply has_char_strip|].
  split; [by apply has_char_strip|apply strip_idem].
Qed.

Lemma key_from_file_is_clean_witness :
  PyStr.has_char PyStr.LF "f1le-key" = false
  /\ PyStr.has_char PyStr.CR "f1le-key" = false
  /\ PyStr.strip "f1le-key" = "f1le-key".
Proof.
  exact (key_from_file_is_clean w_file (fred None (Some KEY_PATH)) "f1le-key"
           [] eq_refl).
Defined.

(** ** Identifiers and joins *)

Lemma app_inv_head_str (p s t : string) : p +:+ s = p +:+ t -> s = t.
Proof.
  induction p as [|c p IH]; [done|].
  rewrite !app_cons. intros H. injection H as H. by apply IH.
Qed.

(** X16.  [_append_id_to_url] raises [ValueError] when neither identifier
    is given; an integer identifier is the one appended whenever it is
    given, whatever the string identifier is; the string identifier is
    appended as it is otherwise.  Different integers give different URLs,
    and so do different strings. *)
Theorem append_id_to_url_cases (a_url_prefix : string) :
  run (_append_id_to_url a_url_prefix None None)
  = Raise (mk_exn ValueError "No id argument given, cannot append to url") []
  /\ (forall n a_str_id,
        run (_append_id_to_url a_url_prefix (Some n) a_str_id)
        = Return (a_url_prefix +:+ pretty n) [])
  /\ (forall s,
        run (_append_id_to_url a_url_prefix None (Some s))
        = Return (a_url_prefix +:+ s) [])
  /\ (forall n m s s',
        run (_append_id_to_url a_url_prefix (Some n) s)
        = run (_append_id_to_url a_url_prefix (Some m) s') -> n = m)
  /\ (forall s s',
        run (_append_id_to_url a_url_prefix None (Some s))
        = run (_append_id_to_url a_url_prefix None (Some s')) -> s = s').
Proof.
  split; [done|].
  assert (Hint : forall n a_str_id,
            run (_append_id_to_url a_url_prefix (Some n) a_str_id)
            = Return (a_url_prefix +:+ pretty n) []).
  { intros n [s|]; reflexivity. }
  split; [exact Hint|]. split; [done|]. split.
  - intros n m s s'. rewrite !Hint. intros H. injection H as H.
    apply app_inv_head_str in H. by apply (inj pretty).
  - intros s s' H. unfold run in H. simpl in H. injection H as H.
    by apply app_inv_head_str in H.
Qed.

Lemma append_id_to_url_cases_witness :
  (125%Z = 125%Z)
  /\ run (_append_id_to_url "category?category_id=" (Some 125%Z) (Some "GDP"))
     = Return "category?category_id=125" [].
Proof.
  split.
  - exact (proj1 (proj2 (proj2 (proj2 (append_id_to_url_cases
                                         "category?category_id="))))
             125%Z 125%Z None (Some "GDP") eq_refl).
  - exact (proj1 (proj2 (append_id_to_url_cases "category?category_id="))
             125%Z (Some "GDP")).
Defined.

Lemma py_join_non_string (sep : string) (items : list value) (x : value) :
  x ∈ items -> (forall s, x <> VStr s) -> py_join sep (VList items) = None.
Proof.
  intros Hin Hx. unfold py_join.
  assert (Hm : mapM (fun x => match x with VStr s => Some s | _ => None end)
                 items = None).
  { apply mapM_None. apply Exists_exists. exists x. split; [done|].
    destruct x; try done. by destruct (Hx s). }
  by rewrite Hm.
Qed.

(** X17.  [_join_strings_by] raises [TypeError] when either argument is
    [None], and returns the strings of a list joined by the separator.
    When the value cannot be joined (an integer, a boolean, a list with an
    item that is not a string) it prints one line and then raises
    [UnboundLocalError], not [TypeError]: its handler goes on to return a
    name that was never bound. *)
Theorem join_strings_by_cases (sep : string) :
  (forall strings,
     run (_join_strings_by strings None)
     = Raise (mk_exn TypeError "strings and use_str are both required") [])
  /\ run (_join_strings_by VNone (Some sep))
     = Raise (mk_exn TypeError "strings and use_str are both required") []
  /\ (forall names,
        run (_join_strings_by (VList (VStr <$> names)) (Some sep))
        = Return (PyStr.join sep names) [])
  /\ (forall strings,
        strings <> VNone -> py_join sep strings = None ->
        run (_join_strings_by strings (Some sep))
        = Raise UNBOUND_FUSED ["Unable to join strings using " +:+ sep])
  /\ (forall n, py_join sep (VInt n) = None)
  /\ (forall b, py_join sep (VBool b) = None)
  /\ (forall items x,
        x ∈ items -> (forall s, x <> VStr s) ->
        py_join sep (VList items) = None).
Proof.
  split; [done|]. split; [done|]. split.
  { intros names. unfold run, _join_strings_by, try_except, mbind, Py_bind.
    cbn [is_none]. by rewrite py_join_strings. }
  split.
  { intros strings Hn Hj.
    unfold run, _join_strings_by, try_except, mbind, Py_bind.
    rewrite Hj. by destruct strings. }
  split; [done|]. split; [done|].
  intros items x. apply py_join_non_string.
Qed.

Lemma join_strings_by_cases_witness :
  run (_join_strings_by (VList [VStr "usa"; VInt 7]) (Some ";"))
  = Raise UNBOUND_FUSED ["Unable to join strings using ;"].
Proof.
  refine (proj1 (proj2 (proj2 (proj2 (join_strings_by_cases ";"))))
            (VList [VStr "usa"; VInt 7]) _ _).
  - discriminate.
  - refine (proj2 (proj2 (proj2 (proj2 (proj2 (proj2
              (join_strings_by_cases ";"))))))
              [VStr "usa"; VInt 7] (VInt 7) _ _).
    + apply list_elem_of_In. right. left. reflexivity.
    + discriminate.
Defined.

(** ** The table after the call, where nothing changes *)

(** C9 as stated fails: the entry is written, but with the value it had.
    A string that is already in lower case under
    [&include_release_dates_with_no_data=], and a one-character string
    under a [tag_names] name, leave the table as it was passed in. *)
Lemma table_left_as_passed :
  run (_add_optional_params "releases/dates?" [(INCLUDE_EMPTY, VStr "true")])
  = Return ("releases/dates?&include_release_dates_with_no_data=true",
            [(INCLUDE_EMPTY, VStr "true")]) []
  /\ run (_add_optional_params "tags/series?" [("&tag_names=", VStr "a")])
     = Return ("tags/series?&tag_names=a", [("&tag_names=", VStr "a")]) [].
Proof. split; reflexivity. Qed.

(** ** Credential resolution on the code as shipped *)

Lemma viable_api_key_as_shipped_no_source (w : World) (self : FredBase)
    (out : list string) :
  api_key self = None ->
  api_key_file self = None ->
  _viable_api_key_as_shipped w self out
  = Raise (mk_exn SyntaxError "invalid syntax") out.
Proof.
  intros Hk Hf. unfold _viable_api_key_as_shipped. by rewrite Hk, Hf.
Qed.

(** Where resolution does not reach the environment check, the code as
    shipped and the repaired reading are the same program. *)
Lemma shipped_agrees_before_environment (w : World) (self : FredBase)
    (var_url : string) (out : list string) :
  api_key self <> None \/ api_key_file self <> None ->
  _viable_api_key_as_shipped w self out = _viable_api_key w self out
  /\ _make_request_url_as_shipped w self var_url out
     = _make_request_url w self var_url out.
Proof.
  intros H.
  assert (Hv : forall o, _viable_api_key_as_shipped w self o
                         = _viable_api_key w self o).
  { intros o. unfold _viable_api_key_as_shipped, _viable_api_key.
    destruct (api_key self); [done|].
    destruct (api_key_file self); [done|]. by destruct H. }
  split; [apply Hv|].
  unfold _make_request_url_as_shipped, _make_request_url, mbind, Py_bind.
  by rewrite Hv.
Qed.

(** C1.  The code as shipped keeps the first two steps of the precedence
    and stops before the third: an explicit key gives [attribute], a key
    file without an explicit key gives [file], and with neither the call
    ends in the [SyntaxError] of [env_api_key_found], whatever the
    environment holds; it never answers [env]. *)
Theorem shipped_precedence_stops_before_environment (w : World)
    (self : FredBase) :
  (forall k, api_key self = Some k ->
     run (_viable_api_key_as_shipped w self) = Return "attribute" [])
  /\ (forall f, api_key self = None -> api_key_file self = Some f ->
      run (_viable_api_key_as_shipped w self) = Return "file" [])
  /\ (api_key self = None -> api_key_file self = None ->
      run (_viable_api_key_as_shipped w self)
      = Raise (mk_exn SyntaxError "invalid syntax") []
      /\ forall out,
           run (_viable_api_key_as_shipped w self) <> Return "env" out).
Proof.
  unfold run. split; [|split].
  - intros k Hk. unfold _viable_api_key_as_shipped. by rewrite Hk.
  - intros f Hk Hf. unfold _viable_api_key_as_shipped. by rewrite Hk, Hf.
  - intros Hk Hf. rewrite (viable_api_key_as_shipped_no_source w self [] Hk Hf).
    by split.
Qed.

Lemma shipped_precedence_stops_before_environment_witness :
  run (_viable_api_key_as_shipped w_file (fred (Some "k3y") (Some KEY_PATH)))
  = Return "attribute" []
  /\ run (_viable_api_key_as_shipped w_file (fred None (Some KEY_PATH)))
     = Return "file" []
  /\ run (_viable_api_key_as_shipped w_env (fred None None))
     = Raise (mk_exn SyntaxError "invalid syntax") [].
Proof.
  split; [|split].
  - exact (proj1 (shipped_precedence_stops_before_environment w_file
                    (fred (Some "k3y") (Some KEY_PATH))) "k3y" eq_refl).
  - exact (proj1 (proj2 (shipped_precedence_stops_before_environment w_file
                           (fred None (Some KEY_PATH)))) KEY_PATH eq_refl
             eq_refl).
  - exact (proj1 (proj2 (proj2 (shipped_precedence_stops_before_environment
                                  w_env (fred None None))) eq_refl eq_refl)).
Defined.

(** C2.  On the code as shipped, no explicit key, no key file and no
    [FRED_API_KEY] do not give the missing-credential error: the call
    ends in [SyntaxError] before the [raise AttributeError] of line 160 is
    reached, in resolution and in URL building alike. *)
Theorem shipped_missing_credential_error_unreached (w : World)
    (self : FredBase) (var_url : string) :
  api_key self = None ->
  api_key_file self = None ->
  environ w !! FRED_API_KEY = None ->
  run (_viable_api_key_as_shipped w self)
  = Raise (mk_exn SyntaxError "invalid syntax") []
  /\ run (_viable_api_key_as_shipped w self)
     <> Raise (mk_exn AttributeError "Cannot locate a FRED API key") []
  /\ run (_make_request_url_as_shipped w self var_url)
     = Raise (mk_exn SyntaxError "invalid syntax") [].
Proof.
  intros Hk Hf _. unfold run.
  pose proof (viable_api_key_as_shipped_no_source w self [] Hk Hf) as Hv.
  rewrite Hv. split; [done|]. split; [done|].
  unfold _make_request_url_as_shipped, mbind, Py_bind. by rewrite Hv.
Qed.

Lemma shipped_missing_credential_error_unreached_witness :
  run (_viable_api_key_as_shipped w_empty (fred None None))
  = Raise (mk_exn SyntaxError "invalid syntax") []
  /\ run (_viable_api_key_as_shipped w_empty (fred None None))
     <> Raise (mk_exn AttributeError "Cannot locate a FRED API key") []
  /\ run (_make_request_url_as_shipped w_empty (fred None None)
            "series?series_id=GDP")
     = Raise (mk_exn SyntaxError "invalid syntax") [].
Proof.
  exact (shipped_missing_credential_error_unreached w_empty (fred None None)
           "series?series_id=GDP" eq_refl eq_refl eq_refl).
Defined.

(** C3.  On the code as shipped, the environment variable as the only
    source is never reported and never used: resolution ends in
    [SyntaxError] instead of answering [env], and no URL is built, so no
    URL ends with the value of the variable. *)
Theorem shipped_environment_source_unreached (w : World) (self : FredBase)
    (v var_url : string) :
  api_key self = None ->
  api_key_file self = None ->
  environ w !! FRED_API_KEY = Some v ->
  run (_viable_api_key_as_shipped w self)
  = Raise (mk_exn SyntaxError "invalid syntax") []
  /\ run (_make_request_url_as_shipped w self var_url)
     = Raise (mk_exn SyntaxError "invalid syntax") []
  /\ forall url out,
       run (_make_request_url_as_shipped w self var_url) <> Return url out.
Proof.
  intros Hk Hf _. unfold run.
  pose proof (viable_api_key_as_shipped_no_source w self [] Hk Hf) as Hv.
  assert (Hu : _make_request_url_as_shipped w self var_url []
               = Raise (mk_exn SyntaxError "invalid syntax") []).
  { unfold _make_request_url_as_shipped, mbind, Py_bind. by rewrite Hv. }
  rewrite Hv, Hu. by repeat split.
Qed.

Lemma shipped_environment_source_unreached_witness :
  run (_viable_api_key_as_shipped w_env (fred None None))
  = Raise (mk_exn SyntaxError "invalid syntax") []
  /\ run (_make_request_url_as_shipped w_env (fred None None)
            "series?series_id=GDP")
     = Raise (mk_exn SyntaxError "invalid syntax") []
  /\ forall url out,
       run (_make_request_url_as_shipped w_env (fred None None)
              "series?series_id=GDP") <> Return url out.
Proof.
  exact (shipped_environment_source_unreached w_env (fred None None) "abc123"
           "series?series_id=GDP" eq_refl eq_refl eq_refl).
Defined.
